(** * Order totals and grid controls of the Reaction storefront

    A shallow embedding of the two source files of the repository:

    - the order transform ([getSummary] and the [orderTransform] accessors),
    - the [GridItemControls] React component.

    The code is JavaScript.  Documents are untyped, so the embedding works
    over a small universe of JavaScript values and follows the evaluation
    rules of the language for the operators the code uses (property access,
    truthiness, [===], [+], [*], [||], [try]/[catch], [reduce], [for..of]).

    Conventions of the embedding:

    - a number is [NaN] or an exact rational: binary rounding, infinities,
      signed zero and the exponent notation of very large numbers are not
      represented;
    - an object is the ordered list of its own properties (insertion order),
      which is also the order [Object.keys] gives for keys that are not array
      indices; inherited members of [Object.prototype] are not represented;
    - strings are sequences of ASCII characters;
    - a run has one of three outcomes, see [completion]. *)

From Stdlib Require Import ZArith QArith Qround Qminmax Qpower.
From Stdlib Require Import List String Ascii Bool Lia Lqa.
From Stdlib Require Import Permutation.
Import ListNotations.

Set Warnings "-register-all".

Local Open Scope string_scope.

(* ------------------------------------------------------------------ *)
(** ** Outcomes of a run *)

(** A JavaScript expression either yields a value, or throws, or leaves the
    fragment of the language that is interpreted here (a coercion between
    strings and numbers, the identity of two object references, the
    properties of strings and arrays).  Nothing is stated about runs of the
    third kind. *)
Inductive completion (A : Type) : Type :=
| Normal (a : A)
| Throw
| Unsupported.

Arguments Normal {A} a.
Arguments Throw {A}.
Arguments Unsupported {A}.

Definition bind {A B : Type} (c : completion A) (k : A -> completion B)
  : completion B :=
  match c with
  | Normal a => k a
  | Throw => Throw
  | Unsupported => Unsupported
  end.

Declare Scope js_scope.
Delimit Scope js_scope with js.
Notation "x <- c ;; k" := (bind c (fun x => k))
  (at level 61, c at next level, right associativity) : js_scope.
Local Open Scope js_scope.

(** [try { c } catch (e) { return h }] *)
Definition try_catch {A : Type} (c : completion A) (h : completion A)
  : completion A :=
  match c with
  | Throw => h
  | _ => c
  end.

(* ------------------------------------------------------------------ *)
(** ** Numbers *)

Inductive number : Type :=
| NaN
| Num (q : Q).

Definition num_add (a b : number) : number :=
  match a, b with
  | Num p, Num q => Num (p + q)
  | _, _ => NaN
  end.

Definition num_sub (a b : number) : number :=
  match a, b with
  | Num p, Num q => Num (p - q)
  | _, _ => NaN
  end.

Definition num_mul (a b : number) : number :=
  match a, b with
  | Num p, Num q => Num (p * q)
  | _, _ => NaN
  end.

(** [Math.max(a, b)]: [NaN] as soon as an argument is [NaN]. *)
Definition Math_max (a b : number) : number :=
  match a, b with
  | Num p, Num q => Num (Qmax p q)
  | _, _ => NaN
  end.

(** [a === b] on numbers: [NaN] differs from everything. *)
Definition num_eqb (a b : number) : bool :=
  match a, b with
  | Num p, Num q => Qeq_bool p q
  | _, _ => false
  end.

(** Equality of numbers as mathematical values ([NaN] only equals itself). *)
Definition num_eq (a b : number) : Prop :=
  match a, b with
  | NaN, NaN => True
  | Num p, Num q => (p == q)%Q
  | _, _ => False
  end.

Definition num_truthy (a : number) : bool :=
  match a with
  | NaN => false
  | Num q => negb (Qeq_bool q 0)
  end.

Definition zero : number := Num 0.

(* ------------------------------------------------------------------ *)
(** ** Values *)

Inductive value : Type :=
| VUndef
| VNull
| VBool (b : bool)
| VNum (n : number)
| VStr (s : string)
| VObj (fields : list (string * value))
| VArr (elems : list value).

(** ToBoolean *)
Definition truthy (v : value) : bool :=
  match v with
  | VUndef | VNull => false
  | VBool b => b
  | VNum n => num_truthy n
  | VStr s => negb (String.eqb s "")
  | VObj _ | VArr _ => true
  end.

(** [a || b], for a right operand without effects. *)
Definition js_or (a b : value) : value := if truthy a then a else b.

(** Own properties of an object, in insertion order. *)
Definition object := list (string * value).

Fixpoint obj_find (k : string) (o : object) : option value :=
  match o with
  | [] => None
  | (k', v) :: r => if String.eqb k k' then Some v else obj_find k r
  end.

(** [o[k]] on an object: [undefined] when the property is absent. *)
Definition obj_get (k : string) (o : object) : value :=
  match obj_find k o with
  | Some v => v
  | None => VUndef
  end.

(** [o[k] = v]: an existing property keeps its place, a new one goes last. *)
Fixpoint obj_set (k : string) (v : value) (o : object) : object :=
  match o with
  | [] => [(k, v)]
  | (k', v') :: r =>
      if String.eqb k k' then (k', v) :: r else (k', v') :: obj_set k v r
  end.

(** [Object.keys(o)] *)
Definition obj_keys (o : object) : list string := map fst o.

(** [v[k]] for a property name [k]: reading a property of [undefined] or
    [null] is a TypeError. *)
Definition js_get (v : value) (k : string) : completion value :=
  match v with
  | VUndef | VNull => Throw
  | VObj o => Normal (obj_get k o)
  | VBool _ | VNum _ => Normal VUndef
  | VStr _ | VArr _ => Unsupported
  end.

(** ToPropertyKey, for a computed member access [o[v]]. *)
Definition to_key (v : value) : completion string :=
  match v with
  | VStr s => Normal s
  | VUndef => Normal "undefined"
  | VNull => Normal "null"
  | VBool true => Normal "true"
  | VBool false => Normal "false"
  | VNum _ | VObj _ | VArr _ => Unsupported
  end.

(** ToNumber, on the values whose conversion needs no string parsing. *)
Definition to_number (v : value) : completion number :=
  match v with
  | VUndef => Normal NaN
  | VNull => Normal zero
  | VBool true => Normal (Num 1)
  | VBool false => Normal zero
  | VNum n => Normal n
  | VStr _ | VObj _ | VArr _ => Unsupported
  end.

(** [a * b] *)
Definition js_mul (a b : value) : completion value :=
  x <- to_number a ;;
  y <- to_number b ;;
  Normal (VNum (num_mul x y)).

(** [a + b]: numeric addition.  With a string, an object or an array as an
    operand the language concatenates strings, which is not interpreted. *)
Definition js_add (a b : value) : completion value :=
  x <- to_number a ;;
  y <- to_number b ;;
  Normal (VNum (num_add x y)).

(** [a === b] *)
Definition strict_eq (a b : value) : completion bool :=
  match a, b with
  | VUndef, VUndef => Normal true
  | VNull, VNull => Normal true
  | VBool x, VBool y => Normal (Bool.eqb x y)
  | VNum x, VNum y => Normal (num_eqb x y)
  | VStr x, VStr y => Normal (String.eqb x y)
  | (VObj _ | VArr _), (VObj _ | VArr _) => Unsupported
  | _, _ => Normal false
  end.

(** [l.reduce(cb, init)] on the elements of an array. *)
Fixpoint reduce {A : Type} (cb : A -> value -> completion A)
         (l : list value) (acc : A) : completion A :=
  match l with
  | [] => Normal acc
  | x :: r => acc' <- cb acc x ;; reduce cb r acc'
  end.

(** [path[i]] used as a property name: an index past the end of the path
    reads [undefined], whose property key is the string "undefined". *)
Definition path_key (path : list string) (i : nat) : string :=
  nth i path "undefined".

(* ------------------------------------------------------------------ *)
(** ** Decimal text of numbers *)

Definition is_digit (c : ascii) : bool :=
  let n := nat_of_ascii c in (48 <=? n)%nat && (n <=? 57)%nat.

Definition digit_val (c : ascii) : Z := Z.of_nat (nat_of_ascii c - 48).

Definition digit_char (d : Z) : ascii := ascii_of_nat (48 + Z.to_nat d).

(** The digits of [n], most significant first, in front of [tail]. *)
Fixpoint print_digits (fuel : nat) (n : Z) (tail : string) : string :=
  let tail' := String (digit_char (n mod 10)) tail in
  match fuel with
  | O => tail'
  | S f => if (n / 10 =? 0)%Z then tail' else print_digits f (n / 10) tail'
  end.

Definition string_of_natural (n : Z) : string :=
  print_digits (Z.to_nat (Z.log2 n)) n "".

(** [f] written with exactly [p] digits. *)
Fixpoint frac_digits (p : nat) (f : Z) : string :=
  match p with
  | O => ""
  | S p' =>
      String (digit_char (f / 10 ^ Z.of_nat p'))
             (frac_digits p' (f mod 10 ^ Z.of_nat p'))
  end.

(** The longest run of digits at the head of [s]: its value on top of
    [acc], the number of digits read on top of [cnt], and the rest. *)
Fixpoint scan_digits (s : string) (acc : Z) (cnt : nat) : Z * nat * string :=
  match s with
  | String c r =>
      if is_digit c then scan_digits r (acc * 10 + digit_val c) (S cnt)
      else (acc, cnt, s)
  | EmptyString => (acc, cnt, s)
  end.

Definition is_space (c : ascii) : bool :=
  let n := nat_of_ascii c in
  ((9 <=? n)%nat && (n <=? 13)%nat) || (n =? 32)%nat.

Fixpoint skip_spaces (s : string) : string :=
  match s with
  | String c r => if is_space c then skip_spaces r else s
  | EmptyString => s
  end.

(** An optional sign: [true] for a minus. *)
Definition parse_sign (s : string) : bool * string :=
  match s with
  | String "-"%char r => (true, r)
  | String "+"%char r => (false, r)
  | _ => (false, s)
  end.

(** An optional exponent part (e or E, a sign, digits); 0 when there is
    none. *)
Definition parse_exponent (s : string) : Z :=
  match s with
  | String c r =>
      if (Ascii.eqb c "e" || Ascii.eqb c "E")%bool then
        let '(neg, r1) := parse_sign r in
        let '(e, n, _) := scan_digits r1 0 0 in
        if (n =? 0)%nat then 0%Z else if neg then (- e)%Z else e
      else 0%Z
  | EmptyString => 0%Z
  end.

(** The global [parseFloat] on a string: the longest prefix that is a
    decimal literal, [NaN] when there is none. *)
Definition parseFloat (s : string) : completion number :=
  let '(neg, r) := parse_sign (skip_spaces s) in
  if String.prefix "Infinity" r then Unsupported
  else
    let '(ip, ni, r1) := scan_digits r 0 0 in
    let '(fp, nf, r2) :=
      match r1 with
      | String "."%char r' => scan_digits r' 0 0
      | _ => (0%Z, O, r1)
      end in
    if (ni + nf =? 0)%nat then Normal NaN
    else
      let m := (inject_Z ip + inject_Z fp / inject_Z (10 ^ Z.of_nat nf))%Q in
      let v := (m * Qpower 10 (parse_exponent r2))%Q in
      Normal (Num (if neg then (- v)%Q else v)).

(** [Math.round]: the nearest integer, a half goes up. *)
Definition Math_round (q : Q) : Z := Qfloor (q + (1 # 2)).

(** Modelled from the spec: [accounting.toFixed] of the accounting-js
    library, which is imported by the order transform and is not part of
    the sources.  The spec calls it standard half-up fixed-point
    formatting: the value is scaled by [10^precision], rounded with
    [Math.round], scaled back and printed with [precision] decimals; [NaN]
    prints as "NaN". *)
Definition toFixed (n : number) (precision : nat) : string :=
  match n with
  | NaN => "NaN"
  | Num q =>
      let power := (10 ^ Z.of_nat precision)%Z in
      let r := Math_round (q * inject_Z power) in
      let a := Z.abs r in
      (if (r <? 0)%Z then "-" else "")
        ++ string_of_natural (a / power)
        ++ match precision with
           | O => ""
           | S _ => String "."%char (frac_digits precision (a mod power))
           end
  end.

(** [accounting.toFixed(v, precision)] on a value; only numbers are
    formatted here. *)
Definition accounting_toFixed (v : value) (precision : nat)
  : completion string :=
  match v with
  | VNum n => Normal (toFixed n precision)
  | _ => Unsupported
  end.

(* ------------------------------------------------------------------ *)
(** ** Library and language helpers used by the transform *)

(** [v.reduce(cb, init)]: only arrays have a [reduce] method; on any other
    value the call is a TypeError. *)
Definition array_reduce {A : Type} (v : value)
           (cb : A -> value -> completion A) (init : A) : completion A :=
  match v with
  | VArr l => reduce cb l init
  | _ => Throw
  end.

(** [for (const x of v) body], the loop state threaded through [body]:
    arrays are iterated in order, strings would be iterated by character,
    nothing else in the universe is iterable. *)
Definition for_of {A : Type} (v : value)
           (body : A -> value -> completion A) (init : A) : completion A :=
  match v with
  | VArr l => reduce body l init
  | VStr _ => Unsupported
  | _ => Throw
  end.

(** [l.map(f)] *)
Fixpoint array_map {A B : Type} (f : A -> completion B) (l : list A)
  : completion (list B) :=
  match l with
  | [] => Normal []
  | x :: r => y <- f x ;; ys <- array_map f r ;; Normal (y :: ys)
  end.

(** The order lodash puts on sort keys: strings by code unit, numbers by
    value, [null] after them and [undefined] last; other keys are not
    interpreted. *)
Definition compareAscending (a b : value) : completion comparison :=
  match a, b with
  | VStr x, VStr y => Normal (String.compare x y)
  | VNum (Num p), VNum (Num q) => Normal (p ?= q)%Q
  | VUndef, VUndef => Normal Eq
  | VNull, VNull => Normal Eq
  | VUndef, (VNull | VStr _ | VNum (Num _)) => Normal Gt
  | (VNull | VStr _ | VNum (Num _)), VUndef => Normal Lt
  | VNull, (VStr _ | VNum (Num _)) => Normal Gt
  | (VStr _ | VNum (Num _)), VNull => Normal Lt
  | _, _ => Unsupported
  end.

(** Insertion of [x] with key [kx] in front of a sorted list: [x] stays
    before the elements whose key is not smaller. *)
Fixpoint sort_insert (kx x : value) (l : list (value * value))
  : completion (list (value * value)) :=
  match l with
  | [] => Normal [(kx, x)]
  | (ky, y) :: r =>
      c <- compareAscending kx ky ;;
      match c with
      | Gt => r' <- sort_insert kx x r ;; Normal ((ky, y) :: r')
      | _ => Normal ((kx, x) :: (ky, y) :: r)
      end
  end.

Fixpoint sort_keyed (l : list (value * value))
  : completion (list (value * value)) :=
  match l with
  | [] => Normal []
  | (kx, x) :: r => r' <- sort_keyed r ;; sort_insert kx x r'
  end.

(** [_.sortBy(l, iteratee)] of lodash: a stable sort of [l] in ascending
    order of the key the iteratee computes for each element. *)
Definition sortBy (l : list value) (iteratee : value -> completion value)
  : completion (list value) :=
  keyed <- array_map (fun x => k <- iteratee x ;; Normal (k, x)) l ;;
  sorted <- sort_keyed keyed ;;
  Normal (map snd sorted).

(** The [Shops] collection: the shop documents it holds. *)
Definition collection := list object.

(** [Shops.findOne(id)]: the first document whose [_id] is [id], or
    [undefined]. *)
Fixpoint findOne (c : collection) (id : string) : value :=
  match c with
  | [] => VUndef
  | d :: r =>
      match obj_get "_id" d with
      | VStr i => if String.eqb i id then VObj d else findOne r id
      | _ => findOne r id
      end
  end.

(* ------------------------------------------------------------------ *)
(** ** getSummary *)

(** [path.length === 1 ? item[path[0]] : item[path[0]][path[1]]] *)
Definition resolve (item : value) (path : list string) : completion value :=
  if (List.length path =? 1)%nat then js_get item (path_key path 0)
  else (v <- js_get item (path_key path 0) ;; js_get v (path_key path 1)).

(** [sum + item[prop[0]] * (the value at prop2)] *)
Definition weighted (prop prop2 : list string) (sum item : value)
  : completion value :=
  a <- js_get item (path_key prop 0) ;;
  b <- resolve item prop2 ;;
  m <- js_mul a b ;;
  js_add sum m.

(** The callback [getSummary] hands to [reduce].  [prop2] is [None] when
    the argument is omitted; [shopId] is [VUndef] when it is omitted. *)
Definition summary_step (prop : list string) (prop2 : option (list string))
           (shopId : value) (sum item : value) : completion value :=
  match prop2 with
  | Some p2 =>
      if truthy shopId then
        itemShop <- js_get item "shopId" ;;
        same <- strict_eq shopId itemShop ;;
        if (same : bool) then weighted prop p2 sum item else Normal sum
      else weighted prop p2 sum item
  | None => b <- resolve item prop ;; js_add sum b
  end.

(** The body of the [try] block. *)
Definition getSummary_try (items : value) (prop : list string)
           (prop2 : option (list string)) (shopId : value)
  : completion value :=
  match items with
  | VArr l => reduce (summary_step prop prop2 shopId) l (VNum zero)
  | _ => Normal (VNum zero)
  end.

Definition getSummary (items : value) (prop : list string)
           (prop2 : option (list string)) (shopId : value)
  : completion value :=
  try_catch (getSummary_try items prop prop2 shopId) (Normal (VNum zero)).

(* ------------------------------------------------------------------ *)
(** ** The order transform *)

(** The accessors are methods of an order document; [this] is the list of
    its properties.  [Shops] is the collection the module imports. *)
Module orderTransform.

Definition orderCount (this : object) : completion value :=
  getSummary (obj_get "items" this) ["quantity"] None VUndef.

Definition orderShipping (this : object) : completion string :=
  rate <- getSummary (obj_get "shipping" this)
                     ["shipmentMethod"; "rate"] None VUndef ;;
  handling <- getSummary (obj_get "shipping" this)
                         ["shipmentMethod"; "handling"] None VUndef ;;
  sum <- js_add handling rate ;;
  let shipping := js_or sum (VNum zero) in
  accounting_toFixed shipping 2.

(** The body of the loop of [orderShippingByShop]:
    [billingObject[billingItem.shopId] = billingItem.invoice.shipping]. *)
Definition shippingByShop_step (billingObject : object)
           (billingItem : value) : completion object :=
  shop <- js_get billingItem "shopId" ;;
  invoice <- js_get billingItem "invoice" ;;
  shipping <- js_get invoice "shipping" ;;
  key <- to_key shop ;;
  Normal (obj_set key shipping billingObject).

Definition orderShippingByShop (this : object) : completion object :=
  for_of (obj_get "billing" this) shippingByShop_step [].

Definition orderSubTotal (this : object) : completion string :=
  subTotal <- getSummary (obj_get "items" this)
                         ["quantity"] (Some ["variants"; "price"]) VUndef ;;
  accounting_toFixed subTotal 2.

(** The callback of the [reduce] of [orderSubTotalByShop]. *)
Definition subTotalByShop_step (this : object)
           (uniqueShopSubTotals : object) (item : value)
  : completion object :=
  shop <- js_get item "shopId" ;;
  key <- to_key shop ;;
  if negb (truthy (obj_get key uniqueShopSubTotals)) then
    subTotal <- getSummary (obj_get "items" this) ["quantity"]
                           (Some ["variants"; "price"]) shop ;;
    text <- accounting_toFixed subTotal 2 ;;
    Normal (obj_set key (VStr text) uniqueShopSubTotals)
  else Normal uniqueShopSubTotals.

Definition orderSubTotalByShop (this : object) : completion object :=
  array_reduce (obj_get "items" this) (subTotalByShop_step this) [].

Definition orderTaxes (this : object) : completion string :=
  let tax := js_or (obj_get "tax" this) (VNum zero) in
  text <- orderSubTotal this ;;
  subTotal <- parseFloat text ;;
  taxTotal <- js_mul (VNum subTotal) tax ;;
  accounting_toFixed taxTotal 2.

(** The body of the loop of [orderTaxesByShop]. *)
Definition taxesByShop_step (billingObject : object)
           (billingItem : value) : completion object :=
  shop <- js_get billingItem "shopId" ;;
  invoice <- js_get billingItem "invoice" ;;
  taxes <- js_get invoice "taxes" ;;
  text <- accounting_toFixed taxes 2 ;;
  key <- to_key shop ;;
  Normal (obj_set key (VStr text) billingObject).

Definition orderTaxesByShop (this : object) : completion object :=
  for_of (obj_get "billing" this) taxesByShop_step [].

Definition orderDiscounts (this : object) : completion string :=
  let discount := js_or (obj_get "discount" this) (VNum zero) in
  accounting_toFixed discount 2.

Definition orderTotal (this : object) : completion string :=
  subText <- orderSubTotal this ;;
  subTotal <- parseFloat subText ;;
  shipText <- orderShipping this ;;
  shipping <- parseFloat shipText ;;
  taxText <- orderTaxes this ;;
  taxes <- parseFloat taxText ;;
  discText <- orderDiscounts this ;;
  discount <- parseFloat discText ;;
  let discountTotal := Math_max zero (num_sub subTotal discount) in
  let total := num_add (num_add discountTotal shipping) taxes in
  accounting_toFixed (VNum total) 2.

(** The object [getPaymentMethods] builds from one payment method. *)
Definition paymentMethodObject (method : value) : completion value :=
  storedCard <- js_get method "storedCard" ;;
  processor <- js_get method "processor" ;;
  mode <- js_get method "mode" ;;
  transactionId <- js_get method "transactionId" ;;
  amount <- js_get method "amount" ;;
  method' <- js_get method "method" ;;
  Normal (VObj [("storedCard", storedCard);
                ("processor", processor);
                ("mode", mode);
                ("transactionId", transactionId);
                ("amount", amount);
                ("method", method')]).

Definition getPaymentMethods (this : object) : completion (list value) :=
  match obj_get "billing" this with
  | VArr billing =>
      billingMethods <-
        array_map (fun method => js_get method "paymentMethod") billing ;;
      array_map paymentMethodObject billingMethods
  | _ => Throw
  end.

(** [shopItems[item.shopId].push(item)] *)
Definition push_item (key : string) (item : value) (shopItems : object)
  : completion object :=
  match obj_get key shopItems with
  | VArr l => Normal (obj_set key (VArr (l ++ [item])%list) shopItems)
  | _ => Throw
  end.

(** The callback that groups the items by shop. *)
Definition itemsByShop_step (shopItems : object) (item : value)
  : completion object :=
  shop <- js_get item "shopId" ;;
  key <- to_key shop ;;
  if negb (truthy (obj_get key shopItems)) then
    Normal (obj_set key (VArr [item]) shopItems)
  else push_item key item shopItems.

(** The object built for one shop: a single property, named by the shop
    id, that holds the summary. *)
Definition shopObject (Shops : collection)
           (taxesByShop subTotalsByShop shippingByShop itemsByShop : object)
           (shop : string) : completion value :=
  name <- js_get (findOne Shops shop) "name" ;;
  quantityTotal <-
    array_reduce (obj_get shop itemsByShop)
      (fun qty item =>
         quantity <- js_get item "quantity" ;; js_add qty quantity)
      (VNum zero) ;;
  Normal (VObj [(shop,
                 VObj [("name", name);
                       ("subTotal", obj_get shop subTotalsByShop);
                       ("taxes", obj_get shop taxesByShop);
                       ("items", obj_get shop itemsByShop);
                       ("quantityTotal", quantityTotal);
                       ("shipping", obj_get shop shippingByShop)])]).

Definition getShopSummary (Shops : collection) (this : object)
  : completion (list value) :=
  taxesByShop <- orderTaxesByShop this ;;
  subTotalsByShop <- orderSubTotalByShop this ;;
  shippingByShop <- orderShippingByShop this ;;
  itemsByShop <- array_reduce (obj_get "items" this) itemsByShop_step [] ;;
  shopObjects <-
    array_map
      (shopObject Shops taxesByShop subTotalsByShop shippingByShop
                  itemsByShop)
      (obj_keys itemsByShop) ;;
  sortBy shopObjects (fun shopObject => js_get shopObject "name").

End orderTransform.

(* ------------------------------------------------------------------ *)
(** ** The grid item controls *)

Module GridItemControls.

(** The props of the component: three callbacks and the product. *)
Record props : Type := {
  checked : unit -> value;
  hasChanges : unit -> value;
  hasCreateProductPermission : unit -> value;
  product : value
}.

(** What [render] returns: an element, [undefined] or [null]. *)
Inductive node : Type :=
| Element (tag : string) (attrs : list (string * value))
          (children : list node)
| NUndefined
| NNull.

(** A template literal with one hole: the text of a primitive value. *)
Definition template (prefix : string) (v : value) : completion string :=
  text <- to_key v ;; Normal (prefix ++ text).

Definition renderArchived (p : props) : completion node :=
  deleted <- js_get (product p) "isDeleted" ;;
  if truthy deleted then
    Normal (Element "span" [("className", VStr "badge badge-danger")]
              [Element "Translation"
                 [("defaultValue", VStr "Archived");
                  ("i18nKey", VStr "app.archived")] []])
  else Normal NUndefined.

Definition renderVisibilityButton (p : props) : completion node :=
  if truthy (hasChanges p tt) then
    Normal (Element "div" []
              [Element "IconButton"
                 [("icon", VStr ""); ("onIcon", VStr "");
                  ("status", VStr "info")] []])
  else Normal NUndefined.

Definition render (p : props) : completion node :=
  if truthy (hasCreateProductPermission p tt) then
    id <- js_get (product p) "_id" ;;
    htmlFor <- template "select-product-" id ;;
    let isChecked := checked p tt in
    archived <- renderArchived p ;;
    visibility <- renderVisibilityButton p ;;
    Normal
      (Element "div" [("className", VStr "product-grid-controls")]
         [Element "label"
            [("className", VStr "like-button hidden");
             ("htmlFor", VStr htmlFor)]
            [Element "input"
               [("type", VStr "checkbox");
                ("name", VStr "selectProduct");
                ("value", id);
                ("id", VStr htmlFor);
                ("checked", isChecked);
                ("readOnly", VBool true)] []];
          archived;
          visibility])
  else Normal NNull.

End GridItemControls.

(* ------------------------------------------------------------------ *)
(** ** Order documents *)

(** Modelled from the spec: the shape of an order document, whose schema is
    not part of the sources.  An order holds line items (shop, quantity,
    price of the variant), shipping entries (rate and handling of the
    shipment method), billing entries (shop, shipping and taxes of the
    invoice), a tax rate and a discount.  Tax, discount, rate and handling
    are the optional fields. *)
Module Schema.

Record item : Type := {
  shopId : string;
  quantity : Q;
  price : Q
}.

Record shipment : Type := {
  rate : option Q;
  handling : option Q
}.

Record bill : Type := {
  billShopId : string;
  invoiceShipping : Q;
  invoiceTaxes : Q
}.

Record order : Type := {
  items : list item;
  shipping : list shipment;
  billing : list bill;
  tax : option Q;
  discount : option Q
}.

(** An optional numeric property: present or left out of the object. *)
Definition optional (k : string) (o : option Q) : object :=
  match o with
  | Some q => [(k, VNum (Num q))]
  | None => []
  end.

Definition item_value (i : item) : value :=
  VObj [("shopId", VStr (shopId i));
        ("quantity", VNum (Num (quantity i)));
        ("variants", VObj [("price", VNum (Num (price i)))])].

Definition shipment_value (s : shipment) : value :=
  VObj [("shipmentMethod",
         VObj (optional "rate" (rate s)
               ++ optional "handling" (handling s))%list)].

Definition bill_value (b : bill) : value :=
  VObj [("shopId", VStr (billShopId b));
        ("invoice", VObj [("shipping", VNum (Num (invoiceShipping b)));
                          ("taxes", VNum (Num (invoiceTaxes b)))])].

(** The document the accessors run on. *)
Definition document (o : order) : object :=
  ([("items", VArr (map item_value (items o)));
    ("shipping", VArr (map shipment_value (shipping o)));
    ("billing", VArr (map bill_value (billing o)))]
     ++ optional "tax" (tax o)
     ++ optional "discount" (discount o))%list.

End Schema.

(* ------------------------------------------------------------------ *)
(** ** Reading accessor results *)

Definition strip_minus (s : string) : string :=
  match s with
  | String "-"%char r => r
  | _ => s
  end.


(** The number [parseFloat] reads from the text of [r] hundredths. *)
Definition parsed_cents (r : Z) : Q :=
  let a := Z.abs r in
  let m := (inject_Z (a / 100) + inject_Z (a mod 100) / inject_Z (10 ^ Z.of_nat 2))%Q in
  let v := (m * Qpower 10 0)%Q in
  if (r <? 0)%Z then (- v)%Q else v.

(** The hundredths [toFixed] keeps of [q]. *)
Definition cents (q : Q) : Z := Math_round (q * inject_Z (10 ^ Z.of_nat 2)).

(** What [parseFloat] gives on the text [toFixed] makes of a number. *)
Definition round2 (n : number) : number :=
  match n with
  | NaN => NaN
  | Num q => Num (parsed_cents (cents q))
  end.

(** A number with at most two decimals. *)
Definition is_cents (q : Q) : Prop := exists n : Z, (q == inject_Z n / 100)%Q.


(* ------------------------------------------------------------------ *)
(** ** Amounts of an order *)

Import Schema.
Import orderTransform.

(** Quantity times price, added up over the items, on top of [acc]. *)
Definition sum_lines (l : list item) (acc : Q) : Q :=
  fold_left (fun a i => (a + quantity i * price i)%Q) l acc.

(** The items of one shop. *)
Definition shop_items (shop : string) (l : list item) : list item :=
  filter (fun i => String.eqb shop (shopId i)) l.

(** The sum of quantity times price over the items of one shop. *)
Definition shop_subtotal (shop : string) (l : list item) : Q :=
  sum_lines (shop_items shop l) 0.

(** An optional field added up over the shipping entries; an absent field
    reads [undefined], which turns the sum into [NaN]. *)
Definition field_number (o : option Q) : number :=
  match o with
  | Some q => Num q
  | None => NaN
  end.

Definition field_sum (f : shipment -> option Q) (l : list shipment)
           (acc : number) : number :=
  fold_left (fun a s => num_add a (field_number (f s))) l acc.

Definition subtotal_raw (o : order) : Q := sum_lines (items o) 0.

(** Handling plus rate, or 0 when the sum is not a number. *)
Definition shipping_raw (o : order) : Q :=
  match num_add (field_sum handling (shipping o) zero)
                (field_sum rate (shipping o) zero) with
  | Num q => q
  | NaN => 0
  end.

Definition tax_rate (o : order) : Q :=
  match tax o with
  | Some t => t
  | None => 0
  end.

Definition discount_raw (o : order) : Q :=
  match discount o with
  | Some d => d
  | None => 0
  end.

(** The value of the two-decimal text of [q]. *)
Definition rounded (q : Q) : Q := parsed_cents (cents q).

Definition taxes_raw (o : order) : Q :=
  (rounded (subtotal_raw o) * tax_rate o)%Q.

(** The total as the code assembles it, from the rounded parts. *)
Definition total_raw (o : order) : Q :=
  (Qmax 0 (rounded (subtotal_raw o) - rounded (discount_raw o))
   + rounded (shipping_raw o) + rounded (taxes_raw o))%Q.

(** The total computed from the sums before any rounding. *)
Definition total_unrounded (o : order) : Q :=
  (Qmax 0 (subtotal_raw o - discount_raw o)
   + shipping_raw o + subtotal_raw o * tax_rate o)%Q.

(** The name a shop summary object carries (under its shop key). *)
Definition summary_name (v : value) : value :=
  match v with
  | VObj [(_, VObj fields)] => obj_get "name" fields
  | _ => VUndef
  end.

(** What the subtotals object holds while it is built for the order [o]:
    one formatted subtotal per key. *)
Definition subtotal_entries (o : order) (m : object) : Prop :=
  NoDup (obj_keys m)
  /\ forall k v, obj_find k m = Some v ->
                 v = VStr (toFixed (Num (shop_subtotal k (items o))) 2).

(** One assignment [m[shop of b] = f b] per billing entry, in order. *)
Definition set_all (f : bill -> value) (l : list bill) (m : object) : object :=
  fold_left (fun m b => obj_set (billShopId b) (f b) m) l m.

(* ------------------------------------------------------------------ *)
(** ** Example documents *)

(** The example of the specification: two items of shop A at 5 and one
    item of shop B at 3, nothing else. *)
Definition spec_example : order :=
  {| items := [ {| shopId := "A"; quantity := 2; price := 5 |};
                {| shopId := "B"; quantity := 1; price := 3 |} ];
     shipping := [];
     billing := [];
     tax := None;
     discount := None |}.

(** Goods for 10.004 and a shipping rate of 5.004: the two ways of
    rounding a total differ here. *)
Definition rounding_example : order :=
  {| items := [ {| shopId := "A"; quantity := 2; price := 5002 # 1000 |} ];
     shipping := [ {| rate := Some (5004 # 1000); handling := Some 0 |} ];
     billing := [];
     tax := None;
     discount := None |}.

(** A discount of 1000 on goods for 13, with shipping and a tax rate. *)
Definition discounted_example : order :=
  {| items := [ {| shopId := "A"; quantity := 2; price := 5 |};
                {| shopId := "B"; quantity := 1; price := 3 |} ];
     shipping := [ {| rate := Some 4; handling := Some (5 # 10) |} ];
     billing := [];
     tax := Some (8 # 100);
     discount := Some 1000 |}.




(** A line item with quantity 2 whose [variants] object has no price. *)
Definition item_without_price : value :=
  VObj [("shopId", VStr "A");
        ("quantity", VNum (Num 2));
        ("variants", VObj [])].

(** Two shops: A is named Zeta, B is named Alpha. *)
Definition two_shops : collection :=
  [ [("_id", VStr "A"); ("name", VStr "Zeta")];
    [("_id", VStr "B"); ("name", VStr "Alpha")] ].

(** The items of [spec_example] in the other order. *)
Definition spec_example_swapped : order :=
  {| items := [ {| shopId := "B"; quantity := 1; price := 3 |};
                {| shopId := "A"; quantity := 2; price := 5 |} ];
     shipping := [];
     billing := [];
     tax := None;
     discount := None |}.

(** Props of the grid controls without the permission to create products. *)
Definition props_without_permission : GridItemControls.props :=
  {| GridItemControls.checked := fun _ => VBool true;
     GridItemControls.hasChanges := fun _ => VBool true;
     GridItemControls.hasCreateProductPermission := fun _ => VBool false;
     GridItemControls.product :=
       VObj [("_id", VStr "p1"); ("isDeleted", VBool true)] |}.

(* ------------------------------------------------------------------ *)
(** ** Further amounts and views of an order *)

(** The quantities of the items, added up on top of [acc]. *)
Definition sum_quantities (l : list item) (acc : Q) : Q :=
  fold_left (fun a i => (a + quantity i)%Q) l acc.

(** The distinct elements of a list, each at its first occurrence. *)
Fixpoint first_seen (l : list string) : list string :=
  match l with
  | [] => []
  | x :: r => x :: filter (fun y => negb (String.eqb y x)) (first_seen r)
  end.

(** The value of an optional field of a shipping entry, when every entry
    has it: the sum, on top of [acc]. *)
Fixpoint sum_present (f : shipment -> option Q) (l : list shipment)
         (acc : Q) : option Q :=
  match l with
  | [] => Some acc
  | s :: r =>
      match f s with
      | Some x => sum_present f r (acc + x)%Q
      | None => None
      end
  end.

(** A key list after one assignment: a new key goes last. *)
Definition keys_step (ks : list string) (k : string) : list string :=
  if in_dec string_dec k ks then ks else (ks ++ [k])%list.

(** The name the collection gives for a shop id. *)
Definition shop_name (Shops : collection) (shop : string) : value :=
  match findOne Shops shop with
  | VObj d => obj_get "name" d
  | _ => VUndef
  end.


(** The summary [getShopSummary] holds for one shop of an order. *)
Definition shop_summary (Shops : collection) (o : order)
           (taxesByShop shippingByShop : object) (shop : string) : value :=
  VObj [(shop,
         VObj [("name", shop_name Shops shop);
               ("subTotal",
                VStr (toFixed (Num (shop_subtotal shop (items o))) 2));
               ("taxes", obj_get shop taxesByShop);
               ("items", VArr (map item_value (shop_items shop (items o))));
               ("quantityTotal",
                VNum (Num (sum_quantities (shop_items shop (items o)) 0)));
               ("shipping", obj_get shop shippingByShop)])].

(** The properties a normalised payment method keeps. *)
Definition payment_fields : list string :=
  ["storedCard"; "processor"; "mode"; "transactionId"; "amount"; "method"].

(** A payment method cut down to [payment_fields]; a property it lacks
    is [undefined]. *)
Definition payment_view (method : object) : value :=
  VObj (map (fun k => (k, obj_get k method)) payment_fields).

(** What [itemsByShop] holds once the items [l] are grouped: the shops in
    the order of their first appearance, each with its items in order. *)
Definition grouped (l : list item) (m : object) : Prop :=
  obj_keys m = first_seen (map shopId l)
  /\ forall s, In s (map shopId l) ->
               obj_find s m = Some (VArr (map item_value (shop_items s l))).

(** The badge [renderArchived] returns for a deleted product. *)
Definition archived_badge : GridItemControls.node :=
  GridItemControls.Element "span" [("className", VStr "badge badge-danger")]
    [GridItemControls.Element "Translation"
       [("defaultValue", VStr "Archived"); ("i18nKey", VStr "app.archived")]
       []].

(** The block [renderVisibilityButton] returns for a product with
    changes. *)
Definition visibility_block : GridItemControls.node :=
  GridItemControls.Element "div" []
    [GridItemControls.Element "IconButton"
       [("icon", VStr ""); ("onIcon", VStr ""); ("status", VStr "info")] []].

(** The hidden label around the checkbox of the product [id]. *)
Definition select_label (id : string) (isChecked : value)
  : GridItemControls.node :=
  GridItemControls.Element "label"
    [("className", VStr "like-button hidden");
     ("htmlFor", VStr ("select-product-" ++ id))]
    [GridItemControls.Element "input"
       [("type", VStr "checkbox");
        ("name", VStr "selectProduct");
        ("value", VStr id);
        ("id", VStr ("select-product-" ++ id));
        ("checked", isChecked);
        ("readOnly", VBool true)] []].

(** Props with the permission and a deleted product without changes. *)
Definition props_of_deleted_product : GridItemControls.props :=
  {| GridItemControls.checked := fun _ => VBool false;
     GridItemControls.hasChanges := fun _ => VBool false;
     GridItemControls.hasCreateProductPermission := fun _ => VBool true;
     GridItemControls.product :=
       VObj [("_id", VStr "p1"); ("isDeleted", VBool true)] |}.

(** Two shipping entries, the second without a rate. *)
Definition partial_shipping_example : order :=
  {| items := [];
     shipping := [ {| rate := Some 4; handling := Some (5 # 10) |};
                   {| rate := None; handling := Some 1 |} ];
     billing := [];
     tax := None;
     discount := None |}.

(** [discounted_example] with a discount of 5 instead of 1000. *)
Definition slightly_discounted_example : order :=
  {| items := items discounted_example;
     shipping := shipping discounted_example;
     billing := billing discounted_example;
     tax := tax discounted_example;
     discount := Some 5 |}.

(* ================================================================== *)
(** * Properties *)

(** ** Monad and option plumbing *)

Lemma bind_Normal_inv {A B : Type} (c : completion A) (k : A -> completion B) b :
  bind c k = Normal b -> exists a, c = Normal a /\ k a = Normal b.
Proof.
  destruct c as [a| |]; simpl; intros H; try discriminate.
  exists a; auto.
Qed.

Lemma try_catch_not_Throw {A : Type} (c : completion A) (a : A) :
  try_catch c (Normal a) <> Throw.
Proof. destruct c; simpl; discriminate. Qed.

(** ** Digits *)

Lemma digit_cases (d : Z) :
  (0 <= d < 10)%Z ->
  d = 0%Z \/ d = 1%Z \/ d = 2%Z \/ d = 3%Z \/ d = 4%Z \/
  d = 5%Z \/ d = 6%Z \/ d = 7%Z \/ d = 8%Z \/ d = 9%Z.
Proof. lia. Qed.

Ltac each_digit H :=
  apply digit_cases in H;
  repeat (destruct H as [H | H]); subst.

Lemma is_digit_digit_char (d : Z) :
  (0 <= d < 10)%Z -> is_digit (digit_char d) = true.
Proof. intros H; each_digit H; reflexivity. Qed.

Lemma digit_val_digit_char (d : Z) :
  (0 <= d < 10)%Z -> digit_val (digit_char d) = d.
Proof. intros H; each_digit H; reflexivity. Qed.

Lemma digit_char_plain (d : Z) (r : string) :
  (0 <= d < 10)%Z ->
  parse_sign (skip_spaces (String (digit_char d) r))
    = (false, String (digit_char d) r)
  /\ String.prefix "Infinity" (String (digit_char d) r) = false
  /\ strip_minus (String (digit_char d) r) = String (digit_char d) r.
Proof. intros H; each_digit H; repeat split; reflexivity. Qed.

Lemma mod10_digit (n : Z) : (0 <= n mod 10 < 10)%Z.
Proof. apply Z.mod_pos_bound; lia. Qed.

Lemma scan_digits_digit (c : ascii) (r : string) (acc : Z) (cnt : nat) :
  is_digit c = true ->
  scan_digits (String c r) acc cnt
    = scan_digits r (acc * 10 + digit_val c) (S cnt).
Proof. intros H. cbn [scan_digits]. rewrite H. reflexivity. Qed.

Lemma scan_digits_stop (c : ascii) (r : string) (acc : Z) (cnt : nat) :
  is_digit c = false ->
  scan_digits (String c r) acc cnt = (acc, cnt, String c r).
Proof. intros H. cbn [scan_digits]. rewrite H. reflexivity. Qed.

Lemma scan_digit_char (d : Z) (r : string) (acc : Z) (cnt : nat) :
  (0 <= d < 10)%Z ->
  scan_digits (String (digit_char d) r) acc cnt
    = scan_digits r (acc * 10 + d) (S cnt).
Proof.
  intros H. rewrite scan_digits_digit by (apply is_digit_digit_char, H).
  rewrite digit_val_digit_char by exact H. reflexivity.
Qed.

(** Scanning the printed digits of [n] gives [n] back. *)
Lemma scan_print_digits (fuel : nat) :
  forall n tail c,
    (0 <= n < 10 ^ Z.of_nat (S fuel))%Z ->
    exists k, scan_digits (print_digits fuel n tail) 0 c
              = scan_digits tail n (S (c + k)).
Proof.
  induction fuel as [|f IH]; intros n tail c Hn.
  - exists O. cbn [print_digits].
    change (10 ^ Z.of_nat 1)%Z with 10%Z in Hn.
    rewrite Z.mod_small by lia.
    rewrite scan_digit_char by lia.
    rewrite Nat.add_0_r. reflexivity.
  - cbn [print_digits].
    destruct (n / 10 =? 0)%Z eqn:E.
    + apply Z.eqb_eq in E. exists O.
      assert (Hs : (n mod 10 = n)%Z).
      { pose proof (Z.div_mod n 10). lia. }
      rewrite scan_digit_char by apply mod10_digit.
      rewrite Hs, Nat.add_0_r. reflexivity.
    + assert (Hq : (0 <= n / 10 < 10 ^ Z.of_nat (S f))%Z).
      { split; [apply Z.div_pos; lia|].
        apply Z.div_lt_upper_bound; [lia|].
        replace (Z.of_nat (S (S f))) with (Z.succ (Z.of_nat (S f))) in Hn by lia.
        rewrite Z.pow_succ_r in Hn by lia. lia. }
      destruct (IH (n / 10)%Z (String (digit_char (n mod 10)) tail) c Hq)
        as [k Hk].
      exists (S k). rewrite Hk.
      rewrite scan_digit_char by apply mod10_digit.
      replace (n / 10 * 10 + n mod 10)%Z with n
        by (pose proof (Z.div_mod n 10); lia).
      replace (S (S (c + k))) with (S (c + S k)) by lia. reflexivity.
Qed.

(** The printed digits start with a digit. *)
Lemma print_digits_head (fuel : nat) :
  forall n tail,
    exists d r, (0 <= d < 10)%Z
                /\ print_digits fuel n tail = String (digit_char d) r.
Proof.
  induction fuel as [|f IH]; intros n tail.
  - exists (n mod 10)%Z, tail. split; [apply mod10_digit | reflexivity].
  - cbn [print_digits]. destruct (n / 10 =? 0)%Z.
    + exists (n mod 10)%Z, tail. split; [apply mod10_digit | reflexivity].
    + apply IH.
Qed.

Lemma natural_fuel (n : Z) :
  (0 <= n)%Z -> (0 <= n < 10 ^ Z.of_nat (S (Z.to_nat (Z.log2 n))))%Z.
Proof.
  intros Hn. split; [assumption|].
  destruct (Z.eq_dec n 0) as [->|Hz].
  - reflexivity.
  - assert (Hpos : (0 < n)%Z) by lia.
    pose proof (Z.log2_nonneg n) as Hl.
    pose proof (Z.log2_spec n Hpos) as [_ Hup].
    replace (Z.of_nat (S (Z.to_nat (Z.log2 n)))) with (Z.succ (Z.log2 n)) by lia.
    eapply Z.lt_le_trans; [exact Hup|].
    apply Z.pow_le_mono_l. lia.
Qed.

Lemma scan_string_of_natural (n : Z) (tail : string) (c : nat) :
  (0 <= n)%Z ->
  exists k, scan_digits (print_digits (Z.to_nat (Z.log2 n)) n tail) 0 c
            = scan_digits tail n (S (c + k)).
Proof. intros Hn. apply scan_print_digits, natural_fuel, Hn. Qed.

Lemma print_digits_app (fuel : nat) :
  forall n tail x,
    (print_digits fuel n tail ++ x) = print_digits fuel n (tail ++ x).
Proof.
  induction fuel as [|f IH]; intros n tail x; cbn [print_digits].
  - reflexivity.
  - destruct (n / 10 =? 0)%Z; [reflexivity|]. rewrite IH. reflexivity.
Qed.

(** ** The text [toFixed] produces *)

Lemma frac_digits_2 (f : Z) :
  frac_digits 2 f
  = String (digit_char (f / 10)) (String (digit_char (f mod 10)) "").
Proof.
  cbn [frac_digits].
  change (10 ^ Z.of_nat 1)%Z with 10%Z. change (10 ^ Z.of_nat 0)%Z with 1%Z.
  rewrite Z.div_1_r. reflexivity.
Qed.

Lemma toFixed_2_shape (q : Q) :
  toFixed (Num q) 2
  = ((if (cents q <? 0)%Z then "-" else "")
       ++ print_digits (Z.to_nat (Z.log2 (Z.abs (cents q) / 100)))
            (Z.abs (cents q) / 100)
            (String "."%char
               (String (digit_char (Z.abs (cents q) mod 100 / 10))
                  (String (digit_char (Z.abs (cents q) mod 100 mod 10)) "")))).
Proof.
  unfold toFixed, cents, string_of_natural.
  change (10 ^ Z.of_nat 2)%Z with 100%Z.
  rewrite frac_digits_2, print_digits_app. reflexivity.
Qed.

Lemma frac_bounds (a : Z) :
  (0 <= a mod 100 / 10 < 10)%Z /\ (0 <= a mod 100 mod 10 < 10)%Z
  /\ ((0 * 10 + a mod 100 / 10) * 10 + a mod 100 mod 10 = a mod 100)%Z.
Proof.
  pose proof (Z.mod_pos_bound a 100 ltac:(lia)) as H.
  pose proof (Z.div_mod (a mod 100) 10 ltac:(lia)) as D.
  pose proof (Z.mod_pos_bound (a mod 100) 10 ltac:(lia)) as M.
  repeat split; lia.
Qed.

Lemma parseFloat_digits (neg : bool) (n fp : Z) (d1 d2 : Z) :
  (0 <= n)%Z -> (0 <= d1 < 10)%Z -> (0 <= d2 < 10)%Z ->
  ((0 * 10 + d1) * 10 + d2 = fp)%Z ->
  parseFloat
    ((if neg then "-" else "")
       ++ print_digits (Z.to_nat (Z.log2 n)) n
            (String "."%char
               (String (digit_char d1) (String (digit_char d2) ""))))
  = Normal
      (Num (let v := ((inject_Z n
                       + inject_Z fp / inject_Z (10 ^ Z.of_nat 2))
                      * Qpower 10 0)%Q in
            if neg then (- v)%Q else v)).
Proof.
  intros Hn H1 H2 Hfp.
  set (tail := String "."%char
                 (String (digit_char d1) (String (digit_char d2) ""))).
  destruct (print_digits_head (Z.to_nat (Z.log2 n)) n tail)
    as (d & r & Hd & Hhead).
  destruct (scan_string_of_natural n tail 0 Hn) as [k Hscan].
  destruct (digit_char_plain d r Hd) as (Hsign & Hinf & _).
  assert (Hstart :
    parse_sign (skip_spaces
      ((if neg then "-" else "")
         ++ print_digits (Z.to_nat (Z.log2 n)) n tail))
    = (neg, print_digits (Z.to_nat (Z.log2 n)) n tail)).
  { destruct neg.
    - reflexivity.
    - cbn [append]. rewrite Hhead. exact Hsign. }
  unfold parseFloat. rewrite Hstart.
  rewrite Hhead at 1. rewrite Hinf. rewrite Hscan.
  unfold tail at 1.
  rewrite scan_digits_stop by reflexivity.
  rewrite 2 scan_digit_char by assumption.
  cbn [scan_digits Nat.add Nat.eqb parse_exponent].
  rewrite Hfp. reflexivity.
Qed.

Lemma parseFloat_toFixed (n : number) :
  parseFloat (toFixed n 2) = Normal (round2 n).
Proof.
  destruct n as [|q]; [reflexivity|].
  rewrite toFixed_2_shape.
  destruct (frac_bounds (Z.abs (cents q))) as (B1 & B2 & B3).
  rewrite (parseFloat_digits _ _ (Z.abs (cents q) mod 100)) ; try assumption.
  - reflexivity.
  - apply Z.div_pos; [apply Z.abs_nonneg | lia].
Qed.


(** ** Rounding to hundredths *)

Lemma parsed_cents_value (r : Z) : (parsed_cents r == inject_Z r / 100)%Q.
Proof.
  unfold parsed_cents.
  change (10 ^ Z.of_nat 2)%Z with 100%Z.
  change (Qpower 10 0) with 1%Q.
  pose proof (Z.div_mod (Z.abs r) 100 ltac:(lia)) as D.
  assert (E : (inject_Z (Z.abs r / 100) + inject_Z (Z.abs r mod 100) / inject_Z 100
               == inject_Z (Z.abs r) / 100)%Q).
  { rewrite D at 3. rewrite inject_Z_plus, inject_Z_mult.
    change (inject_Z 100) with 100%Q. field. }
  destruct (r <? 0)%Z eqn:S.
  - apply Z.ltb_lt in S. rewrite Qmult_1_r, E.
    rewrite Z.abs_neq by lia. rewrite inject_Z_opp. field.
  - apply Z.ltb_ge in S. rewrite Qmult_1_r, E.
    rewrite Z.abs_eq by lia. reflexivity.
Qed.


Lemma Math_round_integer (n : Z) : Math_round (inject_Z n) = n.
Proof.
  unfold Math_round.
  pose proof (Qfloor_le (inject_Z n + (1 # 2))) as L.
  pose proof (Qlt_floor (inject_Z n + (1 # 2))) as U.
  set (f := Qfloor (inject_Z n + (1 # 2))) in *. clearbody f.
  assert (A : (inject_Z f < inject_Z (n + 1))%Q).
  { rewrite inject_Z_plus. change (inject_Z 1) with 1%Q. lra. }
  assert (B : (inject_Z n < inject_Z (f + 1))%Q) by lra.
  rewrite <- Zlt_Qlt in A, B. lia.
Qed.

Lemma Math_round_comp (x y : Q) : (x == y)%Q -> Math_round x = Math_round y.
Proof.
  intros E. unfold Math_round. apply Qfloor_comp. rewrite E. reflexivity.
Qed.

Lemma cents_comp (x y : Q) : (x == y)%Q -> cents x = cents y.
Proof. intros E. unfold cents. apply Math_round_comp. rewrite E. reflexivity. Qed.

Lemma toFixed_comp (x y : Q) :
  (x == y)%Q -> toFixed (Num x) 2 = toFixed (Num y) 2.
Proof. intros E. rewrite 2 toFixed_2_shape, (cents_comp x y E). reflexivity. Qed.

Lemma cents_of_hundredths (q : Q) (n : Z) :
  (q == inject_Z n / 100)%Q -> cents q = n.
Proof.
  intros E. unfold cents. change (10 ^ Z.of_nat 2)%Z with 100%Z.
  rewrite <- (Math_round_integer n). apply Math_round_comp.
  rewrite E. change (inject_Z 100) with 100%Q. field.
Qed.

(** Rounding leaves a number of at most two decimals as it is. *)
Lemma round2_is_cents (q : Q) :
  is_cents q -> (parsed_cents (cents q) == q)%Q.
Proof.
  intros [n E]. rewrite (cents_of_hundredths q n E), parsed_cents_value.
  symmetry. exact E.
Qed.

Lemma parsed_cents_is_cents (r : Z) : is_cents (parsed_cents r).
Proof. exists r. apply parsed_cents_value. Qed.

(** ** Objects as maps *)

Lemma obj_find_set_same (k : string) (v : value) (o : object) :
  obj_find k (obj_set k v o) = Some v.
Proof.
  induction o as [|[k' v'] r IH]; cbn [obj_set obj_find].
  - rewrite String.eqb_refl. reflexivity.
  - destruct (String.eqb k k') eqn:E; cbn [obj_find]; rewrite E; auto.
Qed.

Lemma obj_find_set_other (k k' : string) (v : value) (o : object) :
  k <> k' -> obj_find k (obj_set k' v o) = obj_find k o.
Proof.
  intros N. induction o as [|[k2 v2] r IH]; cbn [obj_set obj_find].
  - apply String.eqb_neq in N. rewrite N. reflexivity.
  - destruct (String.eqb k' k2) eqn:E; cbn [obj_find].
    + apply String.eqb_eq in E. subst k2.
      apply String.eqb_neq in N. rewrite N. reflexivity.
    + rewrite IH. reflexivity.
Qed.

Lemma obj_find_In (k : string) (o : object) :
  obj_find k o <> None <-> In k (obj_keys o).
Proof.
  induction o as [|[k' v'] r IH]; cbn [obj_find obj_keys map fst In].
  - split; [congruence | tauto].
  - destruct (String.eqb k k') eqn:E.
    + apply String.eqb_eq in E. subst. split; [auto | discriminate].
    + apply String.eqb_neq in E. rewrite IH. unfold obj_keys.
      split; [auto | intros [H|H]; [congruence | exact H]].
Qed.

Lemma obj_keys_set (k : string) (v : value) (o : object) :
  obj_keys (obj_set k v o)
  = if in_dec string_dec k (obj_keys o) then obj_keys o
    else (obj_keys o ++ [k])%list.
Proof.
  induction o as [|[k' v'] r IH]; cbn [obj_set obj_keys map fst].
  - reflexivity.
  - destruct (String.eqb k k') eqn:E.
    + apply String.eqb_eq in E. subst k'. cbn [map fst].
      destruct (in_dec string_dec k (k :: map fst r)) as [_|N];
        [reflexivity | exfalso; apply N; left; reflexivity].
    + apply String.eqb_neq in E. cbn [map fst]. fold (obj_keys r).
      fold (obj_keys (obj_set k v r)). rewrite IH.
      destruct (in_dec string_dec k (obj_keys r)) as [I|N];
        destruct (in_dec string_dec k (k' :: obj_keys r)) as [I'|N'];
        try reflexivity.
      * exfalso. apply N'. right. exact I.
      * exfalso. destruct I' as [I'|I']; [congruence | auto].
Qed.

Lemma obj_keys_set_In (k k' : string) (v : value) (o : object) :
  In k' (obj_keys (obj_set k v o)) <-> k' = k \/ In k' (obj_keys o).
Proof.
  rewrite obj_keys_set.
  destruct (in_dec string_dec k (obj_keys o)) as [I|N].
  - split; [auto | intros [->|H]; auto].
  - rewrite in_app_iff. cbn [In]. intuition congruence.
Qed.

Lemma obj_keys_set_NoDup (k : string) (v : value) (o : object) :
  NoDup (obj_keys o) -> NoDup (obj_keys (obj_set k v o)).
Proof.
  intros H. rewrite obj_keys_set.
  destruct (in_dec string_dec k (obj_keys o)) as [I|N]; [exact H|].
  apply NoDup_app; [exact H | repeat constructor; auto |].
  intros x Hx [<-|[]]. auto.
Qed.


(** ** getSummary on the items and shipping entries of an order *)

Lemma truthy_shop (s : string) : s <> "" -> truthy (VStr s) = true.
Proof. intros N. cbn [truthy]. apply String.eqb_neq in N. rewrite N. reflexivity. Qed.

Lemma summary_step_line (acc : Q) (i : item) :
  summary_step ["quantity"] (Some ["variants"; "price"]) VUndef
               (VNum (Num acc)) (item_value i)
  = Normal (VNum (Num (acc + quantity i * price i))).
Proof. reflexivity. Qed.

Lemma summary_step_shop (s : string) (acc : Q) (i : item) :
  s <> "" ->
  summary_step ["quantity"] (Some ["variants"; "price"]) (VStr s)
               (VNum (Num acc)) (item_value i)
  = Normal (VNum (Num (if String.eqb s (shopId i)
                       then (acc + quantity i * price i)%Q else acc))).
Proof.
  intros N. unfold summary_step. rewrite (truthy_shop s N).
  change (js_get (item_value i) "shopId") with (Normal (VStr (shopId i))).
  cbn [bind strict_eq].
  destruct (String.eqb s (shopId i)); reflexivity.
Qed.

Lemma reduce_lines (l : list item) :
  forall acc,
    reduce (summary_step ["quantity"] (Some ["variants"; "price"]) VUndef)
           (map item_value l) (VNum (Num acc))
    = Normal (VNum (Num (sum_lines l acc))).
Proof.
  induction l as [|i r IH]; intros acc; cbn [map reduce].
  - reflexivity.
  - rewrite summary_step_line. cbn [bind]. rewrite IH. reflexivity.
Qed.

Lemma reduce_shop_lines (s : string) (l : list item) :
  s <> "" ->
  forall acc,
    reduce (summary_step ["quantity"] (Some ["variants"; "price"]) (VStr s))
           (map item_value l) (VNum (Num acc))
    = Normal (VNum (Num (sum_lines (shop_items s l) acc))).
Proof.
  intros N. induction l as [|i r IH]; intros acc; cbn [map reduce].
  - reflexivity.
  - rewrite (summary_step_shop s acc i N). cbn [bind]. rewrite IH.
    unfold shop_items. cbn [filter].
    destruct (String.eqb s (shopId i)); reflexivity.
Qed.

Lemma getSummary_lines (l : list item) :
  getSummary (VArr (map item_value l)) ["quantity"]
             (Some ["variants"; "price"]) VUndef
  = Normal (VNum (Num (sum_lines l 0))).
Proof.
  unfold getSummary, getSummary_try, zero. rewrite reduce_lines. reflexivity.
Qed.

Lemma getSummary_shop_lines (s : string) (l : list item) :
  s <> "" ->
  getSummary (VArr (map item_value l)) ["quantity"]
             (Some ["variants"; "price"]) (VStr s)
  = Normal (VNum (Num (shop_subtotal s l))).
Proof.
  intros N. unfold getSummary, getSummary_try, zero, shop_subtotal.
  rewrite (reduce_shop_lines s l N). reflexivity.
Qed.

Lemma summary_step_rate (acc : number) (s : shipment) :
  summary_step ["shipmentMethod"; "rate"] None VUndef
               (VNum acc) (shipment_value s)
  = Normal (VNum (num_add acc (field_number (rate s)))).
Proof. destruct s as [[r|] [h|]]; reflexivity. Qed.

Lemma summary_step_handling (acc : number) (s : shipment) :
  summary_step ["shipmentMethod"; "handling"] None VUndef
               (VNum acc) (shipment_value s)
  = Normal (VNum (num_add acc (field_number (handling s)))).
Proof. destruct s as [[r|] [h|]]; reflexivity. Qed.

Lemma reduce_rate (l : list shipment) :
  forall acc,
    reduce (summary_step ["shipmentMethod"; "rate"] None VUndef)
           (map shipment_value l) (VNum acc)
    = Normal (VNum (field_sum rate l acc)).
Proof.
  unfold field_sum.
  induction l as [|s r IH]; intros acc; cbn [map reduce fold_left].
  - reflexivity.
  - rewrite summary_step_rate. cbn [bind]. apply IH.
Qed.

Lemma getSummary_rate (l : list shipment) :
  getSummary (VArr (map shipment_value l)) ["shipmentMethod"; "rate"]
             None VUndef
  = Normal (VNum (field_sum rate l zero)).
Proof. unfold getSummary, getSummary_try. rewrite reduce_rate. reflexivity. Qed.

Lemma reduce_handling (l : list shipment) :
  forall acc,
    reduce (summary_step ["shipmentMethod"; "handling"] None VUndef)
           (map shipment_value l) (VNum acc)
    = Normal (VNum (field_sum handling l acc)).
Proof.
  unfold field_sum.
  induction l as [|s r IH]; intros acc; cbn [map reduce fold_left].
  - reflexivity.
  - rewrite summary_step_handling. cbn [bind]. apply IH.
Qed.

Lemma getSummary_handling (l : list shipment) :
  getSummary (VArr (map shipment_value l)) ["shipmentMethod"; "handling"]
             None VUndef
  = Normal (VNum (field_sum handling l zero)).
Proof.
  unfold getSummary, getSummary_try. rewrite reduce_handling. reflexivity.
Qed.

(** ** The accessors on an order document *)

Lemma doc_tax (o : order) :
  obj_get "tax" (document o) = match tax o with
                               | Some t => VNum (Num t)
                               | None => VUndef
                               end.
Proof. unfold document. destruct (tax o), (discount o); reflexivity. Qed.

Lemma doc_discount (o : order) :
  obj_get "discount" (document o) = match discount o with
                                    | Some d => VNum (Num d)
                                    | None => VUndef
                                    end.
Proof. unfold document. destruct (tax o), (discount o); reflexivity. Qed.

(** [v || 0] before formatting: a zero or absent number formats as 0. *)
Lemma toFixed_or_zero (q : Q) :
  accounting_toFixed (js_or (VNum (Num q)) (VNum zero)) 2
  = Normal (toFixed (Num q) 2).
Proof.
  unfold js_or. cbn [truthy num_truthy].
  destruct (Qeq_bool q 0) eqn:E; cbn [negb accounting_toFixed].
  - apply Qeq_bool_iff in E. unfold zero.
    rewrite (toFixed_comp q 0 E). reflexivity.
  - reflexivity.
Qed.

Lemma orderSubTotal_doc (o : order) :
  orderSubTotal (document o) = Normal (toFixed (Num (subtotal_raw o)) 2).
Proof.
  unfold orderSubTotal.
  change (obj_get "items" (document o)) with (VArr (map item_value (items o))).
  rewrite getSummary_lines. reflexivity.
Qed.

Lemma orderShipping_doc (o : order) :
  orderShipping (document o) = Normal (toFixed (Num (shipping_raw o)) 2).
Proof.
  unfold orderShipping, shipping_raw.
  change (obj_get "shipping" (document o))
    with (VArr (map shipment_value (shipping o))).
  rewrite getSummary_rate, getSummary_handling.
  cbn [bind js_add to_number].
  destruct (num_add (field_sum handling (shipping o) zero)
                    (field_sum rate (shipping o) zero)) as [|q].
  - reflexivity.
  - apply toFixed_or_zero.
Qed.

Lemma orderDiscounts_doc (o : order) :
  orderDiscounts (document o) = Normal (toFixed (Num (discount_raw o)) 2).
Proof.
  unfold orderDiscounts, discount_raw. rewrite doc_discount.
  destruct (discount o) as [d|]; [apply toFixed_or_zero | reflexivity].
Qed.

Lemma orderTaxes_doc (o : order) :
  orderTaxes (document o) = Normal (toFixed (Num (taxes_raw o)) 2).
Proof.
  unfold orderTaxes, taxes_raw, tax_rate.
  rewrite orderSubTotal_doc. cbn [bind].
  rewrite parseFloat_toFixed. cbn [bind round2].
  fold (rounded (subtotal_raw o)).
  rewrite doc_tax. destruct (tax o) as [t|].
  - unfold js_or. cbn [truthy num_truthy].
    destruct (Qeq_bool t 0) eqn:E; cbn [negb js_mul to_number bind num_mul
                                          accounting_toFixed].
    + apply Qeq_bool_iff in E. unfold zero. cbn [num_mul].
      f_equal. apply toFixed_comp. rewrite E. reflexivity.
    + reflexivity.
  - reflexivity.
Qed.

Lemma orderTotal_doc (o : order) :
  orderTotal (document o) = Normal (toFixed (Num (total_raw o)) 2).
Proof.
  unfold orderTotal.
  rewrite orderSubTotal_doc, orderShipping_doc, orderTaxes_doc,
    orderDiscounts_doc.
  cbn [bind]. rewrite !parseFloat_toFixed. cbn [bind]. reflexivity.
Qed.

(** ** Reading the accessors of any document *)

Lemma accounting_toFixed_inv (v : value) (s : string) :
  accounting_toFixed v 2 = Normal s -> exists n, v = VNum n /\ s = toFixed n 2.
Proof.
  destruct v; cbn [accounting_toFixed]; intros H; try discriminate.
  injection H as <-. eauto.
Qed.

Lemma orderSubTotal_text (this : object) (s : string) :
  orderSubTotal this = Normal s -> exists n, s = toFixed n 2.
Proof.
  unfold orderSubTotal. intros H.
  apply bind_Normal_inv in H as (v & _ & H).
  apply accounting_toFixed_inv in H as (n & _ & ->). eauto.
Qed.

Lemma orderShipping_text (this : object) (s : string) :
  orderShipping this = Normal s -> exists n, s = toFixed n 2.
Proof.
  unfold orderShipping. intros H.
  apply bind_Normal_inv in H as (r & _ & H).
  apply bind_Normal_inv in H as (h & _ & H).
  apply bind_Normal_inv in H as (v & _ & H).
  apply accounting_toFixed_inv in H as (n & _ & ->). eauto.
Qed.

Lemma orderTaxes_text (this : object) (s : string) :
  orderTaxes this = Normal s -> exists n, s = toFixed n 2.
Proof.
  unfold orderTaxes. intros H.
  apply bind_Normal_inv in H as (t & _ & H).
  apply bind_Normal_inv in H as (n0 & _ & H).
  apply bind_Normal_inv in H as (v & _ & H).
  apply accounting_toFixed_inv in H as (n & _ & ->). eauto.
Qed.

(** The discount is never [NaN]: [this.discount || 0] replaces it. *)
Lemma orderDiscounts_text (this : object) (s : string) :
  orderDiscounts this = Normal s -> exists q, s = toFixed (Num q) 2.
Proof.
  unfold orderDiscounts. intros H.
  apply accounting_toFixed_inv in H as (n & E & ->).
  unfold js_or in E.
  destruct (truthy (obj_get "discount" this)) eqn:T.
  - rewrite E in T. destruct n as [|q]; [discriminate | eauto].
  - injection E as <-. unfold zero. eauto.
Qed.

Lemma parse_text (n m : number) :
  parseFloat (toFixed n 2) = Normal m -> m = round2 n.
Proof. rewrite parseFloat_toFixed. congruence. Qed.

(** How [orderTotal] is put together from the other accessors. *)
Lemma orderTotal_assembly (this : object)
      (subText shipText taxText discText : string)
      (subTotal shipping taxes discount : number) :
  orderSubTotal this = Normal subText ->
  parseFloat subText = Normal subTotal ->
  orderShipping this = Normal shipText ->
  parseFloat shipText = Normal shipping ->
  orderTaxes this = Normal taxText ->
  parseFloat taxText = Normal taxes ->
  orderDiscounts this = Normal discText ->
  parseFloat discText = Normal discount ->
  orderTotal this
  = Normal (toFixed (num_add (num_add (Math_max zero
                                         (num_sub subTotal discount))
                                      shipping) taxes) 2).
Proof.
  intros H1 P1 H2 P2 H3 P3 H4 P4. unfold orderTotal.
  rewrite H1. cbn [bind]. rewrite P1. cbn [bind].
  rewrite H2. cbn [bind]. rewrite P2. cbn [bind].
  rewrite H3. cbn [bind]. rewrite P3. cbn [bind].
  rewrite H4. cbn [bind]. rewrite P4. cbn [bind].
  reflexivity.
Qed.

(** ** Numbers of at most two decimals *)

Lemma is_cents_comp (p q : Q) : (p == q)%Q -> is_cents p -> is_cents q.
Proof. intros E [n H]. exists n. rewrite <- E. exact H. Qed.

Lemma is_cents_zero : is_cents 0.
Proof. exists 0%Z. reflexivity. Qed.

Lemma is_cents_add (p q : Q) : is_cents p -> is_cents q -> is_cents (p + q).
Proof.
  intros [n H] [m K]. exists (n + m)%Z.
  rewrite H, K, inject_Z_plus. field.
Qed.

Lemma is_cents_sub (p q : Q) : is_cents p -> is_cents q -> is_cents (p - q).
Proof.
  intros [n H] [m K]. exists (n - m)%Z.
  rewrite H, K. unfold Z.sub. rewrite inject_Z_plus, inject_Z_opp. field.
Qed.

Lemma is_cents_max0 (q : Q) : is_cents q -> is_cents (Qmax 0 q).
Proof.
  intros H. destruct (Q.max_spec 0 q) as [[_ E]|[_ E]].
  - apply (is_cents_comp q); [symmetry; exact E | exact H].
  - apply (is_cents_comp 0); [symmetry; exact E | exact is_cents_zero].
Qed.

Lemma round2_cents_value (n : number) :
  match round2 n with
  | NaN => n = NaN
  | Num q => is_cents q
  end.
Proof. destruct n; cbn [round2]; [reflexivity | apply parsed_cents_is_cents]. Qed.


(** A total put together from rounded parts needs no further rounding. *)
Lemma round2_total (n1 n2 n3 n4 : number) :
  num_eq
    (round2 (num_add (num_add (Math_max zero
                                 (num_sub (round2 n1) (round2 n4)))
                              (round2 n2)) (round2 n3)))
    (num_add (num_add (Math_max zero (num_sub (round2 n1) (round2 n4)))
                      (round2 n2)) (round2 n3)).
Proof.
  pose proof (round2_cents_value n1) as C1.
  pose proof (round2_cents_value n2) as C2.
  pose proof (round2_cents_value n3) as C3.
  pose proof (round2_cents_value n4) as C4.
  destruct (round2 n1) as [|q1], (round2 n2) as [|q2],
    (round2 n3) as [|q3], (round2 n4) as [|q4];
    cbn [num_sub Math_max num_add round2 num_eq zero]; try exact I.
  apply round2_is_cents.
  repeat apply is_cents_add; try assumption.
  apply is_cents_max0, is_cents_sub; assumption.
Qed.

(* ------------------------------------------------------------------ *)
(** ** The order total *)

(** C4. For every order document on which the four accessors return,
    [orderTotal] returns a text whose value is
    max(0, subTotal - discount) + shipping + taxes, where subTotal,
    shipping, taxes and discount are the values of the texts that
    [orderSubTotal], [orderShipping], [orderTaxes] and [orderDiscounts]
    return on the same document. *)
Theorem C4_orderTotal_formula
        (this : object) (subText shipText taxText discText : string)
        (subTotal shipping taxes discount : number) :
  orderSubTotal this = Normal subText ->
  parseFloat subText = Normal subTotal ->
  orderShipping this = Normal shipText ->
  parseFloat shipText = Normal shipping ->
  orderTaxes this = Normal taxText ->
  parseFloat taxText = Normal taxes ->
  orderDiscounts this = Normal discText ->
  parseFloat discText = Normal discount ->
  exists (totalText : string) (total : number),
    orderTotal this = Normal totalText
    /\ parseFloat totalText = Normal total
    /\ num_eq total
         (num_add (num_add (Math_max zero (num_sub subTotal discount))
                           shipping) taxes).
Proof.
  intros H1 P1 H2 P2 H3 P3 H4 P4.
  rewrite (orderTotal_assembly this _ _ _ _ _ _ _ _ H1 P1 H2 P2 H3 P3 H4 P4).
  destruct (orderSubTotal_text _ _ H1) as [n1 ->].
  destruct (orderShipping_text _ _ H2) as [n2 ->].
  destruct (orderTaxes_text _ _ H3) as [n3 ->].
  destruct (orderDiscounts_text _ _ H4) as [q4 ->].
  apply parse_text in P1, P2, P3, P4. subst.
  eexists. eexists. split; [reflexivity|].
  split; [apply parseFloat_toFixed|]. apply round2_total.
Qed.


(** C10. [orderTotal] formats max(0, r(subTotal) - r(discount))
    + r(shipping) + r(taxes) to two decimals, each r being the number read
    back from the text the accessor returns.  This is not the rounding of
    the total of the unrounded sums: on [rounding_example] the accessor
    gives 15.00 where the unrounded total rounds to 15.01. *)
Theorem C10_orderTotal_from_rounded_parts
        (this : object) (subText shipText taxText discText : string)
        (subTotal shipping taxes discount : number) :
  orderSubTotal this = Normal subText ->
  parseFloat subText = Normal subTotal ->
  orderShipping this = Normal shipText ->
  parseFloat shipText = Normal shipping ->
  orderTaxes this = Normal taxText ->
  parseFloat taxText = Normal taxes ->
  orderDiscounts this = Normal discText ->
  parseFloat discText = Normal discount ->
  orderTotal this
  = Normal (toFixed (num_add (num_add (Math_max zero
                                         (num_sub subTotal discount))
                                      shipping) taxes) 2)
  /\ orderTotal (document rounding_example) = Normal "15.00"
  /\ toFixed (Num (total_unrounded rounding_example)) 2 = "15.01".
Proof.
  intros H1 P1 H2 P2 H3 P3 H4 P4.
  split; [eapply orderTotal_assembly; eassumption|].
  split; vm_compute; reflexivity.
Qed.

(* ------------------------------------------------------------------ *)
(** ** Formatting and taxes *)



(* ------------------------------------------------------------------ *)
(** ** getSummary never raises *)

Lemma reduce_app {A : Type} (cb : A -> value -> completion A)
      (l1 l2 : list value) :
  forall acc,
    reduce cb (l1 ++ l2)%list acc
    = bind (reduce cb l1 acc) (fun a => reduce cb l2 a).
Proof.
  induction l1 as [|x r IH]; intros acc; cbn [app reduce bind].
  - reflexivity.
  - destruct (cb acc x); cbn [bind]; auto.
Qed.

Lemma resolve_absent_item (x : value) (path : list string) :
  x = VUndef \/ x = VNull -> resolve x path = Throw.
Proof.
  intros [-> | ->]; unfold resolve;
    destruct (List.length path =? 1)%nat; reflexivity.
Qed.

Lemma summary_step_absent_item (prop : list string)
      (prop2 : option (list string)) (shopId sum x : value) :
  x = VUndef \/ x = VNull -> summary_step prop prop2 shopId sum x = Throw.
Proof.
  intros H. unfold summary_step, weighted.
  destruct prop2 as [p2|].
  - destruct (truthy shopId); destruct H as [-> | ->]; reflexivity.
  - rewrite (resolve_absent_item x prop H). reflexivity.
Qed.

Lemma resolve_absent_container (fields : object) (a b : string) :
  obj_get a fields = VUndef \/ obj_get a fields = VNull ->
  resolve (VObj fields) [a; b] = Throw.
Proof.
  intros H. unfold resolve. cbn [List.length Nat.eqb path_key nth js_get bind].
  destruct H as [-> | ->]; reflexivity.
Qed.

(** C2 (amended). [getSummary] never raises.  It returns 0 when [items] is
    not an array, and whenever the callback throws at some item: at an item
    that is [undefined] or [null], and at an item in which the first field
    of a two-level path is [undefined] or [null].  An item that only lacks
    the last field of the path makes nothing throw: the field reads
    [undefined] and the running sum becomes [NaN]. *)
Theorem C2_getSummary_fails_soft
        (items : value) (prop : list string) (prop2 : option (list string))
        (shopId : value) :
  getSummary items prop prop2 shopId <> Throw
  /\ ((forall l, items <> VArr l) ->
      getSummary items prop prop2 shopId = Normal (VNum zero))
  /\ (forall l1 x l2 acc,
         items = VArr (l1 ++ x :: l2)%list ->
         reduce (summary_step prop prop2 shopId) l1 (VNum zero) = Normal acc ->
         summary_step prop prop2 shopId acc x = Throw ->
         getSummary items prop prop2 shopId = Normal (VNum zero))
  /\ (forall sum x,
         x = VUndef \/ x = VNull ->
         summary_step prop prop2 shopId sum x = Throw)
  /\ (forall sum fields a b,
         obj_get a fields = VUndef \/ obj_get a fields = VNull ->
         (prop2 = None -> prop = [a; b] ->
          summary_step prop prop2 shopId sum (VObj fields) = Throw)
         /\ (prop2 = Some [a; b] -> truthy shopId = false ->
             summary_step prop prop2 shopId sum (VObj fields) = Throw))
  /\ (forall sum q fields inner k a b,
         prop = [k] -> prop2 = Some [a; b] -> truthy shopId = false ->
         obj_get k fields = VNum q ->
         obj_get a fields = VObj inner ->
         obj_get b inner = VUndef ->
         summary_step prop prop2 shopId (VNum sum) (VObj fields)
         = Normal (VNum NaN)).
Proof.
  split; [apply try_catch_not_Throw|].
  split.
  { intros N. unfold getSummary, getSummary_try.
    destruct items; try reflexivity. exfalso. eapply N. reflexivity. }
  split.
  { intros l1 x l2 acc -> R T. unfold getSummary, getSummary_try.
    rewrite reduce_app, R. cbn [bind reduce]. rewrite T. reflexivity. }
  split.
  { intros sum x H. apply summary_step_absent_item, H. }
  split.
  { intros sum fields a b H. split.
    - intros -> ->. unfold summary_step.
      rewrite (resolve_absent_container fields a b H). reflexivity.
    - intros -> F. unfold summary_step, weighted. rewrite F.
      rewrite (resolve_absent_container fields a b H). reflexivity. }
  intros sum q fields inner k a b -> -> F Hk Ha Hb.
  unfold summary_step, weighted, resolve. rewrite F.
  cbn [path_key nth js_get bind List.length Nat.eqb].
  rewrite Hk, Ha. cbn [js_get bind]. rewrite Hb.
  cbn [js_mul to_number bind js_add].
  destruct q, sum; reflexivity.
Qed.

(** C2, the claim as stated fails: the nested field [variants.price] of
    the item is absent, nothing throws, and the sum is [NaN], not 0. *)
Lemma C2_absent_price_sums_to_NaN :
  resolve item_without_price ["variants"; "price"] = Normal VUndef
  /\ getSummary (VArr [item_without_price]) ["quantity"]
                (Some ["variants"; "price"]) VUndef
     = Normal (VNum NaN)
  /\ VNum NaN <> VNum zero.
Proof. repeat split; try reflexivity. discriminate. Qed.

(* ------------------------------------------------------------------ *)
(** ** Subtotals by shop *)

Lemma toFixed_nonempty (q : Q) : String.eqb (toFixed (Num q) 2) "" = false.
Proof.
  rewrite toFixed_2_shape.
  set (tail := String "."%char _).
  destruct (cents q <? 0)%Z; [reflexivity|].
  cbn [append].
  destruct (print_digits_head
              (Z.to_nat (Z.log2 (Z.abs (cents q) / 100)))
              (Z.abs (cents q) / 100) tail) as (d & r & _ & ->).
  reflexivity.
Qed.

Lemma subTotalByShop_step_doc (o : order) (m : object) (i : item) :
  shopId i <> "" ->
  subtotal_entries o m ->
  exists m',
    subTotalByShop_step (document o) m (item_value i) = Normal m'
    /\ subtotal_entries o m'
    /\ forall k, In k (obj_keys m') <-> k = shopId i \/ In k (obj_keys m).
Proof.
  intros N [ND V]. unfold subTotalByShop_step.
  change (js_get (item_value i) "shopId") with (Normal (VStr (shopId i))).
  cbn [bind to_key]. unfold obj_get.
  destruct (obj_find (shopId i) m) as [v|] eqn:F.
  - rewrite (V _ _ F). cbn [truthy]. rewrite toFixed_nonempty. cbn [negb].
    exists m. split; [reflexivity|]. split; [split; assumption|].
    intros k. split; [auto|]. intros [->|H]; [|exact H].
    apply obj_find_In. congruence.
  - cbn [truthy negb].
    change (match obj_find "items" (document o) with
            | Some v => v | None => VUndef end)
      with (VArr (map item_value (items o))).
    rewrite (getSummary_shop_lines _ _ N). cbn [bind accounting_toFixed].
    eexists. split; [reflexivity|]. split.
    + split; [apply obj_keys_set_NoDup, ND|].
      intros k v. destruct (string_dec k (shopId i)) as [->|D].
      * rewrite obj_find_set_same. congruence.
      * rewrite obj_find_set_other by exact D. apply V.
    + intros k. apply obj_keys_set_In.
Qed.

Lemma subTotalByShop_reduce (o : order) (l : list item) :
  Forall (fun i => shopId i <> "") l ->
  forall m,
    subtotal_entries o m ->
    exists m',
      reduce (subTotalByShop_step (document o)) (map item_value l) m
      = Normal m'
      /\ subtotal_entries o m'
      /\ forall k, In k (obj_keys m')
                   <-> In k (obj_keys m) \/ In k (map shopId l).
Proof.
  induction 1 as [|i r N _ IH]; intros m I; cbn [map reduce].
  - exists m. split; [reflexivity|]. split; [exact I|].
    intros k. cbn [In]. tauto.
  - destruct (subTotalByShop_step_doc o m i N I) as (m1 & E1 & I1 & K1).
    rewrite E1. cbn [bind].
    destruct (IH m1 I1) as (m2 & E2 & I2 & K2).
    exists m2. split; [exact E2|]. split; [exact I2|].
    intros k. rewrite K2, K1. cbn [In]. intuition congruence.
Qed.



(* ------------------------------------------------------------------ *)
(** ** Shipping and taxes by shop *)

Lemma shippingByShop_step_doc (m : object) (b : bill) :
  shippingByShop_step m (bill_value b)
  = Normal (obj_set (billShopId b) (VNum (Num (invoiceShipping b))) m).
Proof. reflexivity. Qed.

Lemma taxesByShop_step_doc (m : object) (b : bill) :
  taxesByShop_step m (bill_value b)
  = Normal (obj_set (billShopId b)
                    (VStr (toFixed (Num (invoiceTaxes b)) 2)) m).
Proof. reflexivity. Qed.

Lemma reduce_shippingByShop (l : list bill) :
  forall m,
    reduce shippingByShop_step (map bill_value l) m
    = Normal (set_all (fun b => VNum (Num (invoiceShipping b))) l m).
Proof.
  induction l as [|b r IH]; intros m; cbn [map reduce set_all fold_left].
  - reflexivity.
  - rewrite shippingByShop_step_doc. cbn [bind]. apply IH.
Qed.

Lemma reduce_taxesByShop (l : list bill) :
  forall m,
    reduce taxesByShop_step (map bill_value l) m
    = Normal (set_all (fun b => VStr (toFixed (Num (invoiceTaxes b)) 2)) l m).
Proof.
  induction l as [|b r IH]; intros m; cbn [map reduce set_all fold_left].
  - reflexivity.
  - rewrite taxesByShop_step_doc. cbn [bind]. apply IH.
Qed.

Section SetAll.

Variable f : bill -> value.





End SetAll.


(* ------------------------------------------------------------------ *)
(** ** The shop summary *)

Lemma sort_keyed_undefined (l : list (value * value)) :
  Forall (fun p => fst p = VUndef) l -> sort_keyed l = Normal l.
Proof.
  induction 1 as [|[k x] r K H IH]; cbn [sort_keyed].
  - reflexivity.
  - cbn [fst] in K. subst k. rewrite IH. cbn [bind].
    destruct H as [|[k y] r' K' _]; cbn [sort_insert].
    + reflexivity.
    + cbn [fst] in K'. subst k. reflexivity.
Qed.

(** Sorting by a key that is [undefined] on every element changes
    nothing. *)
Lemma sortBy_undefined_keys (l : list value)
      (iteratee : value -> completion value) :
  Forall (fun x => iteratee x = Normal VUndef) l ->
  sortBy l iteratee = Normal l.
Proof.
  intros H. unfold sortBy.
  assert (K : array_map (fun x => k <- iteratee x ;; Normal (k, x)) l
              = Normal (map (fun x => (VUndef, x)) l)).
  { induction H as [|x r E _ IH]; cbn [array_map map].
    - reflexivity.
    - rewrite E. cbn [bind]. rewrite IH. reflexivity. }
  rewrite K. cbn [bind]. rewrite sort_keyed_undefined.
  - cbn [bind]. rewrite map_map. cbn [snd]. rewrite map_id. reflexivity.
  - apply Forall_forall. intros p Hp. apply in_map_iff in Hp.
    destruct Hp as (x & <- & _). reflexivity.
Qed.

Lemma shopObject_sort_key (Shops : collection)
      (taxesByShop subTotalsByShop shippingByShop itemsByShop : object)
      (shop : string) (v : value) :
  shopObject Shops taxesByShop subTotalsByShop shippingByShop itemsByShop shop
  = Normal v ->
  shop <> "name" ->
  js_get v "name" = Normal VUndef.
Proof.
  unfold shopObject. intros H N.
  apply bind_Normal_inv in H as (name & _ & H).
  apply bind_Normal_inv in H as (qty & _ & H).
  injection H as <-. cbn [js_get]. unfold obj_get. cbn [obj_find].
  destruct (String.eqb "name" shop) eqn:E; [|reflexivity].
  apply String.eqb_eq in E. congruence.
Qed.

Lemma array_map_Forall {A B : Type} (f : A -> completion B)
      (P : A -> Prop) (Q : B -> Prop) :
  (forall x y, P x -> f x = Normal y -> Q y) ->
  forall l r, Forall P l -> array_map f l = Normal r -> Forall Q r.
Proof.
  intros PQ l. induction l as [|x t IH]; intros r HP H; cbn [array_map] in H.
  - injection H as <-. constructor.
  - inversion HP as [|? ? Px Pt]; subst.
    apply bind_Normal_inv in H as (y & Hy & H).
    apply bind_Normal_inv in H as (ys & Hys & H).
    injection H as <-. constructor; [eapply PQ; eassumption | eapply IH; eassumption].
Qed.

(** The sort of [getShopSummary] changes nothing: unless a shop id is the
    string "name", the result is the list of shop objects in the order of
    the keys of [itemsByShop]. *)
Lemma getShopSummary_keeps_key_order (Shops : collection) (this : object)
      (r : list value) :
  getShopSummary Shops this = Normal r ->
  exists taxesByShop subTotalsByShop shippingByShop itemsByShop,
    array_reduce (obj_get "items" this) itemsByShop_step [] = Normal itemsByShop
    /\ (~ In "name" (obj_keys itemsByShop) ->
        array_map (shopObject Shops taxesByShop subTotalsByShop
                              shippingByShop itemsByShop)
                  (obj_keys itemsByShop)
        = Normal r).
Proof.
  unfold getShopSummary. intros H.
  apply bind_Normal_inv in H as (taxes & _ & H).
  apply bind_Normal_inv in H as (subs & _ & H).
  apply bind_Normal_inv in H as (ships & _ & H).
  apply bind_Normal_inv in H as (byShop & HB & H).
  apply bind_Normal_inv in H as (objs & HO & H).
  exists taxes, subs, ships, byShop. split; [exact HB|].
  intros N. rewrite HO. rewrite sortBy_undefined_keys in H; [exact H|].
  eapply (array_map_Forall _ (fun shop => shop <> "name")); [| |exact HO].
  - intros shop v Hs Hv. eapply shopObject_sort_key; eassumption.
  - apply Forall_forall. intros shop Hin E. apply N. rewrite <- E. exact Hin.
Qed.

(** C1, the code on two orders with the same items in opposite order.
    Each shop object holds its summary under the shop id, so the sort key
    [shopObject.name] is [undefined] for every one of them and the stable
    sort changes nothing: the summaries come out in the order in which the
    shops first appear among the items, and Zeta stands before Alpha on
    the first order. *)
Theorem C1_shop_summary_keeps_item_order :
  (exists r, getShopSummary two_shops (document spec_example) = Normal r
             /\ map summary_name r = [VStr "Zeta"; VStr "Alpha"]
             /\ Forall (fun x => js_get x "name" = Normal VUndef) r)
  /\ (exists r, getShopSummary two_shops (document spec_example_swapped)
                = Normal r
                /\ map summary_name r = [VStr "Alpha"; VStr "Zeta"]
                /\ Forall (fun x => js_get x "name" = Normal VUndef) r)
  /\ compareAscending (VStr "Zeta") (VStr "Alpha") = Normal Gt.
Proof.
  split; [eexists; split; [vm_compute; reflexivity|];
          split; [reflexivity | repeat constructor]|].
  split; [eexists; split; [vm_compute; reflexivity|];
          split; [reflexivity | repeat constructor]|].
  reflexivity.
Qed.

(* ------------------------------------------------------------------ *)
(** ** The grid item controls *)

(** C8. For every product and whatever [checked] and [hasChanges]
    answer, [render] returns [null] when [hasCreateProductPermission]
    answers false. *)
Theorem C8_no_permission_renders_nothing (p : GridItemControls.props) :
  truthy (GridItemControls.hasCreateProductPermission p tt) = false ->
  GridItemControls.render p = Normal GridItemControls.NNull.
Proof. intros H. unfold GridItemControls.render. rewrite H. reflexivity. Qed.

(* ------------------------------------------------------------------ *)
(** ** The theorems at the example documents *)


(** C4 at [discounted_example]: 13.00 of goods, 4.50 of shipping, 1.04 of
    taxes and a discount of 1000.00. *)
Lemma C4_orderTotal_formula_example :
  exists (totalText : string) (total : number),
    orderTotal (document discounted_example) = Normal totalText
    /\ parseFloat totalText = Normal total
    /\ num_eq total
         (num_add (num_add (Math_max zero
                              (num_sub (round2 (Num 13)) (round2 (Num 1000))))
                           (round2 (Num (45 # 10))))
                  (round2 (Num (104 # 100)))).
Proof.
  apply (C4_orderTotal_formula (document discounted_example)
                               "13.00" "4.50" "1.04" "1000.00");
    vm_compute; reflexivity.
Defined.


(** C8 at props whose other two callbacks answer true. *)
Lemma C8_no_permission_example :
  GridItemControls.render props_without_permission
  = Normal GridItemControls.NNull.
Proof.
  apply (C8_no_permission_renders_nothing props_without_permission).
  reflexivity.
Defined.


(** C10 at [rounding_example]. *)
Lemma C10_orderTotal_from_rounded_parts_example :
  orderTotal (document rounding_example)
  = Normal (toFixed (num_add (num_add (Math_max zero
                                         (num_sub (round2 (Num (10004 # 1000)))
                                                  (round2 (Num 0))))
                                      (round2 (Num (5004 # 1000))))
                             (round2 (Num 0))) 2)
  /\ orderTotal (document rounding_example) = Normal "15.00"
  /\ toFixed (Num (total_unrounded rounding_example)) 2 = "15.01".
Proof.
  apply (C10_orderTotal_from_rounded_parts
           (document rounding_example) "10.00" "5.00" "0.00" "0.00");
    vm_compute; reflexivity.
Defined.

(** C2 at a list whose second item is [null]: the first item adds 10, the
    second throws, and the result is 0. *)
Lemma C2_getSummary_fails_soft_example :
  getSummary (VArr [item_value {| shopId := "A"; quantity := 2; price := 5 |};
                    VNull])
             ["quantity"] (Some ["variants"; "price"]) VUndef
  = Normal (VNum zero).
Proof.
  destruct (C2_getSummary_fails_soft
              (VArr [item_value {| shopId := "A"; quantity := 2; price := 5 |};
                     VNull])
              ["quantity"] (Some ["variants"; "price"]) VUndef)
    as (_ & _ & H & A & _).
  apply (H [item_value {| shopId := "A"; quantity := 2; price := 5 |}]
           VNull [] (VNum (Num (0 + 2 * 5)))).
  - reflexivity.
  - reflexivity.
  - apply A. right. reflexivity.
Defined.


(* ================================================================== *)
(** * Further properties of the order transform *)

(** ** What never raises *)

Lemma bind_not_Throw {A B : Type} (c : completion A) (k : A -> completion B) :
  c <> Throw -> (forall a, k a <> Throw) -> bind c k <> Throw.
Proof. destruct c; cbn [bind]; intros H K; [apply K | congruence | discriminate]. Qed.

Lemma getSummary_not_Throw (items : value) (prop : list string)
      (prop2 : option (list string)) (shopId : value) :
  getSummary items prop prop2 shopId <> Throw.
Proof. apply try_catch_not_Throw. Qed.

Lemma to_number_not_Throw (v : value) : to_number v <> Throw.
Proof. destruct v as [| |[]| | | |]; discriminate. Qed.

Lemma js_add_not_Throw (a b : value) : js_add a b <> Throw.
Proof.
  unfold js_add. apply bind_not_Throw; [apply to_number_not_Throw|].
  intros x. apply bind_not_Throw; [apply to_number_not_Throw | discriminate].
Qed.

Lemma js_mul_not_Throw (a b : value) : js_mul a b <> Throw.
Proof.
  unfold js_mul. apply bind_not_Throw; [apply to_number_not_Throw|].
  intros x. apply bind_not_Throw; [apply to_number_not_Throw | discriminate].
Qed.

Lemma accounting_toFixed_not_Throw (v : value) (p : nat) :
  accounting_toFixed v p <> Throw.
Proof. destruct v; discriminate. Qed.

Lemma parseFloat_not_Throw (s : string) : parseFloat s <> Throw.
Proof.
  unfold parseFloat.
  destruct (parse_sign (skip_spaces s)) as [neg r].
  destruct (String.prefix "Infinity" r); [discriminate|].
  destruct (scan_digits r 0 0) as [[ip ni] r1].
  destruct (match r1 with
            | String "."%char r' => scan_digits r' 0 0
            | _ => (0%Z, O, r1)
            end) as [[fp nf] r2].
  destruct (ni + nf =? 0)%nat; discriminate.
Qed.

Lemma orderSubTotal_not_Throw (this : object) : orderSubTotal this <> Throw.
Proof.
  unfold orderSubTotal.
  apply bind_not_Throw; [apply getSummary_not_Throw|].
  intros v. apply accounting_toFixed_not_Throw.
Qed.

Lemma orderShipping_not_Throw (this : object) : orderShipping this <> Throw.
Proof.
  unfold orderShipping.
  apply bind_not_Throw; [apply getSummary_not_Throw|]. intros r.
  apply bind_not_Throw; [apply getSummary_not_Throw|]. intros h.
  apply bind_not_Throw; [apply js_add_not_Throw|]. intros v.
  apply accounting_toFixed_not_Throw.
Qed.

Lemma orderTaxes_not_Throw (this : object) : orderTaxes this <> Throw.
Proof.
  unfold orderTaxes.
  apply bind_not_Throw; [apply orderSubTotal_not_Throw|]. intros t.
  apply bind_not_Throw; [apply parseFloat_not_Throw|]. intros n.
  apply bind_not_Throw; [apply js_mul_not_Throw|]. intros v.
  apply accounting_toFixed_not_Throw.
Qed.

Lemma orderDiscounts_not_Throw (this : object) : orderDiscounts this <> Throw.
Proof. apply accounting_toFixed_not_Throw. Qed.

(** X1. On every document, whatever it holds or lacks, [orderCount],
    [orderSubTotal], [orderShipping], [orderTaxes], [orderDiscounts] and
    [orderTotal] never raise: every read that can throw is inside the
    [try] of [getSummary]. *)
Theorem scalar_accessors_never_raise (this : object) :
  orderCount this <> Throw
  /\ orderSubTotal this <> Throw
  /\ orderShipping this <> Throw
  /\ orderTaxes this <> Throw
  /\ orderDiscounts this <> Throw
  /\ orderTotal this <> Throw.
Proof.
  split; [apply getSummary_not_Throw|].
  split; [apply orderSubTotal_not_Throw|].
  split; [apply orderShipping_not_Throw|].
  split; [apply orderTaxes_not_Throw|].
  split; [apply orderDiscounts_not_Throw|].
  unfold orderTotal.
  apply bind_not_Throw; [apply orderSubTotal_not_Throw|]. intros t1.
  apply bind_not_Throw; [apply parseFloat_not_Throw|]. intros n1.
  apply bind_not_Throw; [apply orderShipping_not_Throw|]. intros t2.
  apply bind_not_Throw; [apply parseFloat_not_Throw|]. intros n2.
  apply bind_not_Throw; [apply orderTaxes_not_Throw|]. intros t3.
  apply bind_not_Throw; [apply parseFloat_not_Throw|]. intros n3.
  apply bind_not_Throw; [apply orderDiscounts_not_Throw|]. intros t4.
  apply bind_not_Throw; [apply parseFloat_not_Throw|]. intros n4.
  discriminate.
Qed.

(** ** Documents without their arrays *)

Lemma getSummary_not_array (items : value) (prop : list string)
      (prop2 : option (list string)) (shopId : value) :
  (forall l, items <> VArr l) ->
  getSummary items prop prop2 shopId = Normal (VNum zero).
Proof.
  intros N. unfold getSummary, getSummary_try.
  destruct items; try reflexivity. exfalso. eapply N. reflexivity.
Qed.

(** X2. On a document whose [items] is not an array (absent, say), the
    count is 0 and the subtotal is 0.00, but [orderSubTotalByShop], which
    calls [reduce] on [items] outside any [try], raises. *)
Theorem accessors_without_items (this : object) :
  (forall l, obj_get "items" this <> VArr l) ->
  orderCount this = Normal (VNum zero)
  /\ orderSubTotal this = Normal "0.00"
  /\ orderSubTotalByShop this = Throw.
Proof.
  intros N. unfold orderCount, orderSubTotal, orderSubTotalByShop.
  rewrite !(getSummary_not_array _ _ _ _ N).
  repeat split; try reflexivity.
  destruct (obj_get "items" this); try reflexivity.
  exfalso. eapply N. reflexivity.
Qed.

(** X2 at a document with no property at all. *)
Lemma accessors_without_items_example :
  orderCount [] = Normal (VNum zero)
  /\ orderSubTotal [] = Normal "0.00"
  /\ orderSubTotalByShop [] = Throw.
Proof. apply (accessors_without_items []). discriminate. Defined.

(** On a document without [billing] the loops of
    [orderShippingByShop] and [orderTaxesByShop] and the [map] of
    [getPaymentMethods] raise, and so does [getShopSummary], whatever the
    items and the shops are. *)
Theorem accessors_without_billing (Shops : collection) (this : object) :
  obj_get "billing" this = VUndef ->
  orderShippingByShop this = Throw
  /\ orderTaxesByShop this = Throw
  /\ getPaymentMethods this = Throw
  /\ getShopSummary Shops this = Throw.
Proof.
  intros H. unfold orderShippingByShop, orderTaxesByShop, getPaymentMethods,
              getShopSummary, orderTaxesByShop.
  rewrite H. repeat split; reflexivity.
Qed.

(** The same at a document that has items but no billing. *)
Lemma accessors_without_billing_example :
  orderShippingByShop [("items", VArr [])] = Throw
  /\ orderTaxesByShop [("items", VArr [])] = Throw
  /\ getPaymentMethods [("items", VArr [])] = Throw
  /\ getShopSummary two_shops [("items", VArr [])] = Throw.
Proof.
  apply (accessors_without_billing two_shops [("items", VArr [])]).
  reflexivity.
Defined.

(** ** The count and the order of the items *)

Lemma reduce_quantities (l : list item) :
  forall acc,
    reduce (summary_step ["quantity"] None VUndef)
           (map item_value l) (VNum (Num acc))
    = Normal (VNum (Num (sum_quantities l acc))).
Proof.
  induction l as [|i r IH]; intros acc; cbn [map reduce].
  - reflexivity.
  - change (summary_step ["quantity"] None VUndef (VNum (Num acc))
                         (item_value i))
      with (Normal (VNum (Num (acc + quantity i)))).
    cbn [bind]. rewrite IH. reflexivity.
Qed.

Lemma fold_sum_shift (w : item -> Q) (l : list item) :
  forall acc,
    (fold_left (fun a i => a + w i) l acc
     == acc + fold_left (fun a i => a + w i) l 0)%Q.
Proof.
  induction l as [|i r IH]; intros acc; cbn [fold_left].
  - ring.
  - rewrite (IH (acc + w i)%Q), (IH (0 + w i)%Q). ring.
Qed.

Lemma fold_sum_app (w : item -> Q) (l1 l2 : list item) :
  (fold_left (fun a i => a + w i) (l1 ++ l2) 0
   == fold_left (fun a i => a + w i) l1 0
      + fold_left (fun a i => a + w i) l2 0)%Q.
Proof. rewrite fold_left_app. apply fold_sum_shift. Qed.


Lemma orderCount_doc (o : order) :
  orderCount (document o)
  = Normal (VNum (Num (sum_quantities (items o) 0))).
Proof.
  unfold orderCount, getSummary, getSummary_try.
  change (obj_get "items" (document o))
    with (VArr (map item_value (items o))).
  unfold zero. rewrite reduce_quantities. reflexivity.
Qed.

(** X3. For every order, [orderCount] is the sum of the quantities of the
    items, and 0 for an order without items. *)
Theorem orderCount_sums_quantities (o : order) :
  orderCount (document o)
  = Normal (VNum (Num (sum_quantities (items o) 0)))
  /\ (items o = [] -> orderCount (document o) = Normal (VNum zero)).
Proof.
  split; [apply orderCount_doc|].
  intros H. rewrite orderCount_doc, H. reflexivity.
Qed.



(** ** Shipping *)

Lemma field_sum_NaN (f : shipment -> option Q) (l : list shipment) :
  field_sum f l NaN = NaN.
Proof.
  unfold field_sum. induction l as [|s r IH]; cbn [fold_left]; auto.
Qed.

Lemma field_sum_present (f : shipment -> option Q) (l : list shipment) :
  forall acc,
    field_sum f l (Num acc) = match sum_present f l acc with
                              | Some x => Num x
                              | None => NaN
                              end.
Proof.
  induction l as [|s r IH]; intros acc; cbn [sum_present].
  - reflexivity.
  - unfold field_sum. cbn [fold_left]. fold (field_sum f r).
    destruct (f s) as [x|]; cbn [field_number num_add].
    + apply IH.
    + apply field_sum_NaN.
Qed.

(** X5. When every shipping entry has a rate and a handling fee,
    [orderShipping] is the sum of the handling fees plus the sum of the
    rates, formatted to two decimals.  As soon as one entry lacks its rate
    or its handling fee the sum is not a number and [orderShipping] is
    0.00, whatever the other entries hold. *)
Theorem orderShipping_all_or_nothing (o : order) :
  (forall hs rs,
      sum_present handling (shipping o) 0 = Some hs ->
      sum_present rate (shipping o) 0 = Some rs ->
      orderShipping (document o) = Normal (toFixed (Num (hs + rs)) 2))
  /\ (sum_present handling (shipping o) 0 = None
      \/ sum_present rate (shipping o) 0 = None ->
      orderShipping (document o) = Normal "0.00").
Proof.
  rewrite orderShipping_doc. unfold shipping_raw, zero.
  rewrite 2 field_sum_present. split.
  - intros hs rs -> ->. reflexivity.
  - intros [-> | ->]; [reflexivity|].
    destruct (sum_present handling (shipping o) 0); reflexivity.
Qed.

(** X6. A shipping entry without a shipment method (the method is chosen
    late in the checkout) makes both sums fail inside [getSummary], so
    [orderShipping] is 0.00 even when the entries before it carry rates. *)
Theorem orderShipping_without_method
        (this : object) (before : list shipment) (entry : object)
        (rest : list value) :
  obj_get "shipping" this
  = VArr (map shipment_value before ++ VObj entry :: rest)%list ->
  obj_get "shipmentMethod" entry = VUndef ->
  orderShipping this = Normal "0.00".
Proof.
  intros S M.
  assert (G : forall leaf,
             (forall acc,
                 exists acc',
                   reduce (summary_step ["shipmentMethod"; leaf] None VUndef)
                          (map shipment_value before) (VNum acc)
                   = Normal (VNum acc')) ->
             getSummary (obj_get "shipping" this) ["shipmentMethod"; leaf]
                        None VUndef
             = Normal (VNum zero)).
  { intros leaf R. rewrite S. unfold getSummary, getSummary_try.
    rewrite reduce_app. destruct (R zero) as [acc' ->].
    cbn [bind reduce]. unfold summary_step.
    rewrite (resolve_absent_container entry "shipmentMethod" leaf)
      by (left; exact M).
    reflexivity. }
  unfold orderShipping.
  rewrite (G "rate") by (intros acc; eexists; apply reduce_rate).
  rewrite (G "handling") by (intros acc; eexists; apply reduce_handling).
  reflexivity.
Qed.

(** X6 at a document whose first entry costs 4.50 and whose second entry
    has no method yet. *)
Lemma orderShipping_without_method_example :
  orderShipping
    [("shipping",
      VArr [shipment_value {| rate := Some 4; handling := Some (5 # 10) |};
            VObj [("address", VStr "somewhere")]])]
  = Normal "0.00".
Proof.
  apply (orderShipping_without_method
           [("shipping",
             VArr [shipment_value
                     {| rate := Some 4; handling := Some (5 # 10) |};
                   VObj [("address", VStr "somewhere")]])]
           [ {| rate := Some 4; handling := Some (5 # 10) |} ]
           [("address", VStr "somewhere")] []);
    reflexivity.
Defined.

(** ** The total in two particular cases *)

Lemma cents_monotone (p q : Q) : (p <= q)%Q -> (cents p <= cents q)%Z.
Proof.
  intros H. unfold cents, Math_round. apply Qfloor_resp_le.
  apply Qplus_le_l. apply Qmult_le_compat_r; [exact H | discriminate].
Qed.

Lemma rounded_value (q : Q) : (rounded q == inject_Z (cents q) / 100)%Q.
Proof. apply parsed_cents_value. Qed.

Lemma rounded_monotone (p q : Q) : (p <= q)%Q -> (rounded p <= rounded q)%Q.
Proof.
  intros H. rewrite 2 rounded_value.
  pose proof (cents_monotone p q H) as C. rewrite Zle_Qle in C.
  unfold Qdiv. apply Qmult_le_compat_r; [exact C | discriminate].
Qed.

Lemma rounded_zero : (rounded 0 == 0)%Q.
Proof. reflexivity. Qed.

(** Formatting the value of a formatted amount gives the same text. *)
Lemma toFixed_rounded (q : Q) :
  toFixed (Num (rounded q)) 2 = toFixed (Num q) 2.
Proof.
  rewrite 2 toFixed_2_shape.
  rewrite (cents_of_hundredths (rounded q) (cents q) (rounded_value q)).
  reflexivity.
Qed.

(** X7. An order with goods only (no shipping entry, no tax, no discount)
    and a subtotal that is not negative has its subtotal as its total:
    [orderTotal] returns the very text [orderSubTotal] returns. *)
Theorem goods_only_total_is_subtotal (o : order) :
  shipping o = [] ->
  tax o = None ->
  discount o = None ->
  (0 <= subtotal_raw o)%Q ->
  orderTotal (document o) = orderSubTotal (document o).
Proof.
  intros S T D G. rewrite orderTotal_doc, orderSubTotal_doc. f_equal.
  rewrite <- (toFixed_rounded (subtotal_raw o)). apply toFixed_comp.
  unfold total_raw, taxes_raw, shipping_raw, tax_rate, discount_raw.
  rewrite S, T, D. cbn [field_sum fold_left num_add zero].
  pose proof (rounded_monotone 0 _ G) as R. rewrite rounded_zero in R.
  assert (Z1 : (rounded (0 + 0) == 0)%Q) by reflexivity.
  assert (Z2 : (rounded (rounded (subtotal_raw o) * 0) == 0)%Q).
  { rewrite rounded_value.
    rewrite (cents_comp _ 0) by ring. reflexivity. }
  rewrite Z1, Z2, rounded_zero.
  rewrite Q.max_r by lra. ring.
Qed.

(** X7 at [spec_example]. *)
Lemma goods_only_total_example :
  orderTotal (document spec_example) = orderSubTotal (document spec_example).
Proof.
  apply (goods_only_total_is_subtotal spec_example); try reflexivity.
  vm_compute. discriminate.
Defined.

(** X8. When the discount is at least the subtotal, the goods count for
    nothing and [orderTotal] is the rounded shipping plus the rounded
    taxes, formatted to two decimals. *)
Theorem discount_covers_goods (o : order) :
  (subtotal_raw o <= discount_raw o)%Q ->
  orderTotal (document o)
  = Normal (toFixed (Num (rounded (shipping_raw o) + rounded (taxes_raw o)))
                    2).
Proof.
  intros H. rewrite orderTotal_doc. f_equal. apply toFixed_comp.
  unfold total_raw. pose proof (rounded_monotone _ _ H) as R.
  rewrite Q.max_l by lra. ring.
Qed.

(** X8 at [discounted_example]: a discount of 1000 on goods for 13 leaves
    4.50 of shipping and 1.04 of taxes. *)
Lemma discount_covers_goods_example :
  orderTotal (document discounted_example)
  = Normal (toFixed (Num (rounded (shipping_raw discounted_example)
                          + rounded (taxes_raw discounted_example))) 2).
Proof.
  apply (discount_covers_goods discounted_example).
  vm_compute. discriminate.
Defined.

(** ** Keys in the order of first appearance *)

Lemma first_seen_In (x : string) (l : list string) :
  In x (first_seen l) <-> In x l.
Proof.
  induction l as [|a r IH]; cbn [first_seen In]; [tauto|].
  rewrite filter_In, IH. split.
  - intros [H|[H _]]; auto.
  - intros [H|H]; [auto|].
    destruct (string_dec x a) as [->|N]; [auto|].
    right. split; [exact H|]. apply String.eqb_neq in N. rewrite N. reflexivity.
Qed.


Lemma first_seen_snoc (l : list string) (x : string) :
  first_seen (l ++ [x]) = keys_step (first_seen l) x.
Proof.
  unfold keys_step. induction l as [|a r IH]; cbn [app first_seen].
  - reflexivity.
  - rewrite IH.
    destruct (in_dec string_dec x (first_seen r)) as [I|N];
      destruct (in_dec string_dec x
                  (a :: filter (fun y => negb (String.eqb y a))
                               (first_seen r))) as [I'|N'];
      try reflexivity.
    + exfalso. apply N'. destruct (string_dec x a) as [->|D]; [left; auto|].
      right. apply filter_In. split; [exact I|].
      apply String.eqb_neq in D. rewrite D. reflexivity.
    + rewrite filter_app. cbn [filter].
      destruct I' as [<-|I'].
      * rewrite String.eqb_refl. cbn [negb]. rewrite app_nil_r. reflexivity.
      * apply filter_In in I'. tauto.
    + rewrite filter_app. cbn [filter].
      destruct (String.eqb x a) eqn:E.
      * apply String.eqb_eq in E. exfalso. apply N'. left. auto.
      * reflexivity.
Qed.


Lemma obj_keys_set_step (k : string) (v : value) (o : object) :
  obj_keys (obj_set k v o) = keys_step (obj_keys o) k.
Proof. apply obj_keys_set. Qed.

Lemma obj_find_None_In (k : string) (o : object) :
  obj_find k o = None <-> ~ In k (obj_keys o).
Proof.
  rewrite <- obj_find_In. destruct (obj_find k o); split; intros H;
    try congruence; try tauto. exfalso. apply H. discriminate.
Qed.

(** ** The keys of the maps by shop *)




(** ** The shops of the items *)










(** ** The shop summary, shop by shop *)

Lemma shop_items_snoc (s : string) (l : list item) (i : item) :
  shop_items s (l ++ [i])
  = (shop_items s l ++ if String.eqb s (shopId i) then [i] else [])%list.
Proof. unfold shop_items. rewrite filter_app. reflexivity. Qed.

Lemma shop_items_absent (s : string) (l : list item) :
  ~ In s (map shopId l) -> shop_items s l = [].
Proof.
  unfold shop_items. induction l as [|i r IH]; cbn [map In filter]; intros N.
  - reflexivity.
  - destruct (String.eqb s (shopId i)) eqn:E.
    + apply String.eqb_eq in E. exfalso. apply N. left. auto.
    + apply IH. tauto.
Qed.

Lemma itemsByShop_step_grouped (l : list item) (m : object) (i : item) :
  grouped l m ->
  exists m',
    itemsByShop_step m (item_value i) = Normal m' /\ grouped (l ++ [i]) m'.
Proof.
  intros [K V]. unfold itemsByShop_step.
  change (js_get (item_value i) "shopId") with (Normal (VStr (shopId i))).
  cbn [bind to_key].
  assert (G : forall xs,
             map item_value (shop_items (shopId i) l) = xs ->
             grouped (l ++ [i])
                     (obj_set (shopId i) (VArr (xs ++ [item_value i])) m)).
  { intros xs X. split.
    - rewrite obj_keys_set_step, K, map_app. cbn [map].
      symmetry. apply first_seen_snoc.
    - intros s Hs. rewrite shop_items_snoc, map_app.
      destruct (string_dec s (shopId i)) as [->|D].
      + rewrite obj_find_set_same, String.eqb_refl, X. reflexivity.
      + rewrite obj_find_set_other by exact D.
        apply String.eqb_neq in D. rewrite D. cbn [map]. rewrite app_nil_r.
        apply V. rewrite map_app, in_app_iff in Hs.
        destruct Hs as [Hs|[Hs|[]]]; [exact Hs|].
        apply String.eqb_neq in D. congruence. }
  destruct (in_dec string_dec (shopId i) (map shopId l)) as [I|N].
  - unfold obj_get at 1. rewrite (V _ I). cbn [truthy negb].
    unfold push_item, obj_get. rewrite (V _ I).
    eexists. split; [reflexivity|]. apply G. reflexivity.
  - assert (F : obj_find (shopId i) m = None).
    { apply obj_find_None_In. rewrite K, first_seen_In. exact N. }
    unfold obj_get. rewrite F. cbn [truthy negb].
    eexists. split; [reflexivity|].
    apply (G []). rewrite (shop_items_absent _ _ N). reflexivity.
Qed.

Lemma itemsByShop_reduce (l : list item) :
  exists m,
    reduce itemsByShop_step (map item_value l) [] = Normal m /\ grouped l m.
Proof.
  induction l as [|i r IH] using rev_ind.
  - exists []. split; [reflexivity|]. split; [reflexivity|].
    intros s [].
  - destruct IH as (m & E & G).
    destruct (itemsByShop_step_grouped r m i G) as (m' & E' & G').
    exists m'. rewrite map_app, reduce_app, E. cbn [bind map reduce].
    rewrite E'. split; [reflexivity | exact G'].
Qed.

Lemma quantityTotal_reduce (l : list item) :
  forall acc,
    reduce (fun qty item =>
              quantity <- js_get item "quantity" ;; js_add qty quantity)
           (map item_value l) (VNum (Num acc))
    = Normal (VNum (Num (sum_quantities l acc))).
Proof.
  induction l as [|i r IH]; intros acc; cbn [map reduce].
  - reflexivity.
  - change (js_get (item_value i) "quantity")
      with (Normal (VNum (Num (quantity i)))).
    cbn [bind js_add to_number num_add]. apply IH.
Qed.


Lemma array_map_Throw {A B : Type} (f : A -> completion B) (l : list A) :
  (forall x, In x l -> f x = Throw \/ exists y, f x = Normal y) ->
  (exists x, In x l /\ f x = Throw) ->
  array_map f l = Throw.
Proof.
  induction l as [|x r IH]; intros H (z & Hz & T); [destruct Hz|].
  cbn [array_map].
  destruct (H x (or_introl eq_refl)) as [E|[y E]]; rewrite E; cbn [bind].
  - reflexivity.
  - rewrite IH; [reflexivity | |].
    + intros w Hw. apply H. right. exact Hw.
    + destruct Hz as [<-|Hz]; [congruence|]. eauto.
Qed.

Lemma findOne_cases (Shops : collection) (id : string) :
  findOne Shops id = VUndef \/ exists d, findOne Shops id = VObj d.
Proof.
  induction Shops as [|d r IH]; cbn [findOne]; [auto|].
  destruct (obj_get "_id" d); auto.
  destruct (String.eqb s id); eauto.
Qed.

Lemma billing_tables (o : order) :
  exists shippingByShop taxesByShop,
    orderShippingByShop (document o) = Normal shippingByShop
    /\ orderTaxesByShop (document o) = Normal taxesByShop.
Proof.
  unfold orderShippingByShop, orderTaxesByShop.
  change (obj_get "billing" (document o))
    with (VArr (map bill_value (billing o))).
  cbn [for_of]. rewrite reduce_shippingByShop, reduce_taxesByShop. eauto.
Qed.

Section ShopObjects.

Variable Shops : collection.
Variable o : order.
Variables taxesByShop subTotalsByShop shippingByShop itemsByShop : object.
Hypothesis shops_not_empty : Forall (fun i => shopId i <> "") (items o).
Hypothesis subtotals : subtotal_entries o subTotalsByShop.
Hypothesis subtotal_keys :
  forall k, In k (obj_keys subTotalsByShop) <-> In k (map shopId (items o)).
Hypothesis items_grouped : grouped (items o) itemsByShop.

Lemma shopObject_known (s : string) (d : object) :
  In s (map shopId (items o)) ->
  findOne Shops s = VObj d ->
  shopObject Shops taxesByShop subTotalsByShop shippingByShop itemsByShop s
  = Normal (shop_summary Shops o taxesByShop shippingByShop s).
Proof.
  intros Hs F. destruct items_grouped as [_ V]. destruct subtotals as [_ SV].
  assert (GI : obj_get s itemsByShop
               = VArr (map item_value (shop_items s (items o)))).
  { unfold obj_get. rewrite (V s Hs). reflexivity. }
  assert (S : obj_get s subTotalsByShop
              = VStr (toFixed (Num (shop_subtotal s (items o))) 2)).
  { unfold obj_get. apply subtotal_keys, obj_find_In in Hs.
    destruct (obj_find s subTotalsByShop) as [v|] eqn:E; [|congruence].
    apply SV, E. }
  unfold shopObject, shop_summary, shop_name. rewrite F, GI, S.
  cbn [js_get bind array_reduce].
  unfold zero. rewrite quantityTotal_reduce. reflexivity.
Qed.

Lemma shopObject_unknown (s : string) :
  findOne Shops s = VUndef ->
  shopObject Shops taxesByShop subTotalsByShop shippingByShop itemsByShop s
  = Throw.
Proof. intros F. unfold shopObject. rewrite F. reflexivity. Qed.

End ShopObjects.

Lemma getShopSummary_tables (Shops : collection) (o : order) :
  Forall (fun i => shopId i <> "") (items o) ->
  exists taxesByShop subTotalsByShop shippingByShop itemsByShop,
    orderTaxesByShop (document o) = Normal taxesByShop
    /\ orderShippingByShop (document o) = Normal shippingByShop
    /\ subtotal_entries o subTotalsByShop
    /\ (forall k, In k (obj_keys subTotalsByShop)
                  <-> In k (map shopId (items o)))
    /\ grouped (items o) itemsByShop
    /\ getShopSummary Shops (document o)
       = (shopObjects <-
            array_map (shopObject Shops taxesByShop subTotalsByShop
                                  shippingByShop itemsByShop)
                      (first_seen (map shopId (items o))) ;;
          sortBy shopObjects (fun shopObject => js_get shopObject "name")).
Proof.
  intros N.
  destruct (billing_tables o) as (sh & tx & Esh & Etx).
  assert (I0 : subtotal_entries o []).
  { split; [constructor | intros k v H; discriminate]. }
  destruct (subTotalByShop_reduce o (items o) N [] I0) as (sub & Esub & Isub & Ksub).
  destruct (itemsByShop_reduce (items o)) as (grp & Egrp & G).
  exists tx, sub, sh, grp.
  split; [exact Etx|]. split; [exact Esh|]. split; [exact Isub|].
  split; [intros k; rewrite Ksub; cbn [obj_keys map In]; tauto|].
  split; [exact G|].
  unfold getShopSummary. rewrite Etx. cbn [bind].
  unfold orderSubTotalByShop.
  change (obj_get "items" (document o)) with (VArr (map item_value (items o))).
  cbn [array_reduce]. rewrite Esub. cbn [bind]. rewrite Esh. cbn [bind].
  rewrite Egrp. cbn [bind]. destruct G as [K _]. rewrite K. reflexivity.
Qed.



(** X14. When an item of the order belongs to a shop that the [Shops]
    collection does not hold, [getShopSummary] raises: it reads the name
    of the shop document it did not find. *)
Theorem getShopSummary_unknown_shop (Shops : collection) (o : order)
        (i : item) :
  Forall (fun i => shopId i <> "") (items o) ->
  In i (items o) ->
  findOne Shops (shopId i) = VUndef ->
  getShopSummary Shops (document o) = Throw.
Proof.
  intros N Hi F.
  destruct (getShopSummary_tables Shops o N)
    as (tx & sub & sh & grp & Etx & Esh & Isub & Ksub & G & E).
  rewrite E. rewrite array_map_Throw; [reflexivity| |].
  - intros s Hs. apply (proj1 (first_seen_In _ _)) in Hs.
    destruct (findOne_cases Shops s) as [U|[d D]].
    + left. apply shopObject_unknown, U.
    + right. eexists. eapply shopObject_known; eassumption.
  - exists (shopId i). split.
    + apply first_seen_In, in_map, Hi.
    + apply shopObject_unknown, F.
Qed.

(** X14 at [spec_example] and a collection that only holds shop A. *)
Lemma getShopSummary_unknown_shop_example :
  getShopSummary [[("_id", VStr "A"); ("name", VStr "Zeta")]]
                 (document spec_example)
  = Throw.
Proof.
  apply (getShopSummary_unknown_shop
           [[("_id", VStr "A"); ("name", VStr "Zeta")]] spec_example
           {| shopId := "B"; quantity := 1; price := 3 |}).
  - repeat constructor; discriminate.
  - right. left. reflexivity.
  - reflexivity.
Defined.

(** ** Payment methods *)

Lemma paymentMethodObject_view (m : object) :
  paymentMethodObject (VObj m) = Normal (payment_view m).
Proof. reflexivity. Qed.

Lemma array_map_stops {A B : Type} (f : A -> completion B)
      (l1 : list A) (x : A) (l2 : list A) :
  (forall y, In y l1 -> exists z, f y = Normal z) ->
  f x = Throw ->
  array_map f (l1 ++ x :: l2) = Throw.
Proof.
  intros H T. induction l1 as [|y r IH]; cbn [app array_map].
  - rewrite T. reflexivity.
  - destruct (H y (or_introl eq_refl)) as [z ->]. cbn [bind].
    rewrite IH; [reflexivity|]. intros w Hw. apply H. right. exact Hw.
Qed.

Lemma paymentMethods_read (entries : list object) :
  array_map (fun method => js_get method "paymentMethod") (map VObj entries)
  = Normal (map (obj_get "paymentMethod") entries).
Proof.
  induction entries as [|e r IH]; cbn [map array_map].
  - reflexivity.
  - cbn [js_get bind]. rewrite IH. reflexivity.
Qed.

(** X15. When every billing entry holds a payment method object,
    [getPaymentMethods] returns one object per entry, in order, with
    exactly the six properties storedCard, processor, mode, transactionId,
    amount and method of that payment method: a property the method lacks
    is [undefined], any other property is dropped.  Normalising a
    normalised method changes nothing. *)
Theorem getPaymentMethods_views
        (this : object) (entries methods : list object) :
  obj_get "billing" this = VArr (map VObj entries) ->
  map (obj_get "paymentMethod") entries = map VObj methods ->
  getPaymentMethods this = Normal (map payment_view methods)
  /\ forall m, paymentMethodObject (payment_view m) = Normal (payment_view m).
Proof.
  intros B M. split; [|reflexivity].
  unfold getPaymentMethods. rewrite B, paymentMethods_read, M. cbn [bind].
  clear. induction methods as [|m r IH]; cbn [map array_map].
  - reflexivity.
  - rewrite paymentMethodObject_view. cbn [bind]. rewrite IH. reflexivity.
Qed.

(** X15 at one billing entry whose method has a processor, an amount and
    a property that is not kept. *)
Lemma getPaymentMethods_views_example :
  getPaymentMethods
    [("billing",
      VArr [VObj [("shopId", VStr "A");
                  ("paymentMethod",
                   VObj [("processor", VStr "Stripe");
                         ("amount", VNum (Num 13));
                         ("status", VStr "new")])]])]
  = Normal (map payment_view
                [[("processor", VStr "Stripe");
                  ("amount", VNum (Num 13));
                  ("status", VStr "new")]])
  /\ forall m, paymentMethodObject (payment_view m) = Normal (payment_view m).
Proof.
  apply (getPaymentMethods_views
           [("billing",
             VArr [VObj [("shopId", VStr "A");
                         ("paymentMethod",
                          VObj [("processor", VStr "Stripe");
                                ("amount", VNum (Num 13));
                                ("status", VStr "new")])]])]
           [[("shopId", VStr "A");
             ("paymentMethod",
              VObj [("processor", VStr "Stripe");
                    ("amount", VNum (Num 13));
                    ("status", VStr "new")])]]);
    reflexivity.
Defined.

(** X16. A billing entry without payment method makes
    [getPaymentMethods] raise, even when the entries before it have one:
    the properties of [undefined] cannot be read. *)
Theorem getPaymentMethods_without_method
        (this : object) (before : list object) (entry : object)
        (after : list object) :
  obj_get "billing" this = VArr (map VObj (before ++ entry :: after)) ->
  Forall (fun e => exists m, obj_get "paymentMethod" e = VObj m) before ->
  obj_get "paymentMethod" entry = VUndef ->
  getPaymentMethods this = Throw.
Proof.
  intros B F U. unfold getPaymentMethods.
  rewrite B, paymentMethods_read. cbn [bind].
  rewrite map_app. cbn [map]. rewrite U. apply array_map_stops.
  - intros y Hy. apply in_map_iff in Hy as (e & <- & He).
    rewrite Forall_forall in F. destruct (F e He) as [m ->].
    eexists. apply paymentMethodObject_view.
  - reflexivity.
Qed.

(** X16 at a paid entry followed by an entry without payment method. *)
Lemma getPaymentMethods_without_method_example :
  getPaymentMethods
    [("billing",
      VArr [VObj [("paymentMethod", VObj [("processor", VStr "Stripe")])];
            VObj [("shopId", VStr "B")]])]
  = Throw.
Proof.
  apply (getPaymentMethods_without_method
           [("billing",
             VArr [VObj [("paymentMethod",
                          VObj [("processor", VStr "Stripe")])];
                   VObj [("shopId", VStr "B")]])]
           [[("paymentMethod", VObj [("processor", VStr "Stripe")])]]
           [("shopId", VStr "B")] []).
  - reflexivity.
  - repeat constructor. eexists. reflexivity.
  - reflexivity.
Defined.

(* ================================================================== *)
(** * Further properties of the grid item controls *)

(** X17. With the permission to create products, [render] raises when
    the product is [undefined] or [null]; for a product with a string id
    it returns the controls with three children: the hidden label of the
    checkbox, whose [htmlFor] is the [id] of the checkbox and whose
    [checked] is what [checked()] answers, then the archived badge exactly
    when the product is deleted, then the visibility block exactly when
    [hasChanges()] answers true. *)
Theorem render_with_permission (p : GridItemControls.props) :
  truthy (GridItemControls.hasCreateProductPermission p tt) = true ->
  (GridItemControls.product p = VUndef \/ GridItemControls.product p = VNull ->
   GridItemControls.render p = Throw)
  /\ (forall fields id,
         GridItemControls.product p = VObj fields ->
         obj_get "_id" fields = VStr id ->
         GridItemControls.render p
         = Normal
             (GridItemControls.Element
                "div" [("className", VStr "product-grid-controls")]
                [select_label id (GridItemControls.checked p tt);
                 if truthy (obj_get "isDeleted" fields)
                 then archived_badge else GridItemControls.NUndefined;
                 if truthy (GridItemControls.hasChanges p tt)
                 then visibility_block else GridItemControls.NUndefined])).
Proof.
  intros H. unfold GridItemControls.render. rewrite H. split.
  - intros [-> | ->]; reflexivity.
  - intros fields id P I.
    unfold GridItemControls.renderArchived,
      GridItemControls.renderVisibilityButton, GridItemControls.template.
    rewrite P. cbn [js_get bind]. rewrite I. cbn [to_key bind].
    destruct (truthy (obj_get "isDeleted" fields)),
      (truthy (GridItemControls.hasChanges p tt)); reflexivity.
Qed.

(** X17 at a deleted product without changes: the badge is there, the
    visibility block is not. *)
Lemma render_with_permission_example :
  GridItemControls.render props_of_deleted_product
  = Normal
      (GridItemControls.Element
         "div" [("className", VStr "product-grid-controls")]
         [select_label "p1" (VBool false);
          archived_badge;
          GridItemControls.NUndefined]).
Proof.
  destruct (render_with_permission props_of_deleted_product eq_refl)
    as [_ H].
  apply (H [("_id", VStr "p1"); ("isDeleted", VBool true)] "p1");
    reflexivity.
Defined.

(* ================================================================== *)
(** * Further properties of the totals *)

(** X5 at [discounted_example], whose only entry has both fields, and at
    [partial_shipping_example], whose second entry has no rate. *)
Lemma orderShipping_all_or_nothing_example :
  orderShipping (document discounted_example)
  = Normal (toFixed (Num (0 + (5 # 10) + (0 + 4))) 2)
  /\ orderShipping (document partial_shipping_example) = Normal "0.00".
Proof.
  split.
  - apply (proj1 (orderShipping_all_or_nothing discounted_example));
      reflexivity.
  - apply (proj2 (orderShipping_all_or_nothing partial_shipping_example)).
    right. reflexivity.
Defined.

Lemma Qmax_monotone_r (a b : Q) : (a <= b)%Q -> (Qmax 0 a <= Qmax 0 b)%Q.
Proof. intros H. apply Q.max_le_compat_l, H. Qed.

Lemma total_raw_is_cents (o : order) : is_cents (total_raw o).
Proof.
  unfold total_raw, rounded.
  repeat apply is_cents_add; try apply parsed_cents_is_cents.
  apply is_cents_max0, is_cents_sub; apply parsed_cents_is_cents.
Qed.

(** X9. A larger discount never gives a larger total: of two orders
    with the same items, shipping and tax, the one with the larger
    discount has a total whose value is at most the value of the other
    total. *)
Theorem larger_discount_never_costs_more (o o' : order) :
  items o = items o' ->
  shipping o = shipping o' ->
  tax o = tax o' ->
  (discount_raw o <= discount_raw o')%Q ->
  exists text text' total total',
    orderTotal (document o) = Normal text
    /\ orderTotal (document o') = Normal text'
    /\ parseFloat text = Normal (Num total)
    /\ parseFloat text' = Normal (Num total')
    /\ (total' <= total)%Q.
Proof.
  intros I S T D.
  exists (toFixed (Num (total_raw o)) 2), (toFixed (Num (total_raw o')) 2),
    (rounded (total_raw o)), (rounded (total_raw o')).
  split; [apply orderTotal_doc|]. split; [apply orderTotal_doc|].
  split; [apply (parseFloat_toFixed (Num _))|].
  split; [apply (parseFloat_toFixed (Num _))|].
  unfold rounded at 1 2.
  rewrite 2 round2_is_cents by apply total_raw_is_cents.
  unfold total_raw, taxes_raw, tax_rate, shipping_raw, subtotal_raw.
  rewrite I, S, T.
  pose proof (rounded_monotone _ _ D) as R.
  assert (M : (Qmax 0 (rounded (sum_lines (items o') 0)
                       - rounded (discount_raw o'))
               <= Qmax 0 (rounded (sum_lines (items o') 0)
                          - rounded (discount_raw o)))%Q).
  { apply Qmax_monotone_r. lra. }
  lra.
Qed.

(** X9 at [slightly_discounted_example] and [discounted_example]. *)
Lemma larger_discount_example :
  exists text text' total total',
    orderTotal (document slightly_discounted_example) = Normal text
    /\ orderTotal (document discounted_example) = Normal text'
    /\ parseFloat text = Normal (Num total)
    /\ parseFloat text' = Normal (Num total')
    /\ (total' <= total)%Q.
Proof.
  apply (larger_discount_never_costs_more
           slightly_discounted_example discounted_example);
    try reflexivity.
  vm_compute. discriminate.
Defined.

(** ** A missing price *)

Lemma reduce_lines_NaN (l : list item) :
  reduce (summary_step ["quantity"] (Some ["variants"; "price"]) VUndef)
         (map item_value l) (VNum NaN)
  = Normal (VNum NaN).
Proof.
  induction l as [|i r IH]; cbn [map reduce].
  - reflexivity.
  - change (summary_step ["quantity"] (Some ["variants"; "price"]) VUndef
                         (VNum NaN) (item_value i))
      with (Normal (VNum NaN)).
    cbn [bind]. exact IH.
Qed.

(** X18. One item whose [variants] object has no price spoils the whole
    subtotal: whatever well-formed items stand before and after it,
    [orderSubTotal] returns the text NaN, and so does [orderTotal] on a
    document without shipping, tax and discount. *)
Theorem missing_price_spoils_the_subtotal
        (this : object) (before after : list item) (fields inner : object)
        (q : number) :
  obj_get "items" this
  = VArr (map item_value before ++ VObj fields :: map item_value after) ->
  obj_get "quantity" fields = VNum q ->
  obj_get "variants" fields = VObj inner ->
  obj_get "price" inner = VUndef ->
  orderSubTotal this = Normal "NaN"
  /\ (obj_get "shipping" this = VUndef ->
      obj_get "tax" this = VUndef ->
      obj_get "discount" this = VUndef ->
      orderTotal this = Normal "NaN").
Proof.
  intros I Q V P.
  assert (S : orderSubTotal this = Normal "NaN").
  { unfold orderSubTotal, getSummary, getSummary_try. rewrite I.
    rewrite reduce_app. unfold zero. rewrite reduce_lines. cbn [bind reduce].
    unfold summary_step at 1. cbn [truthy]. unfold weighted, resolve.
    cbn [path_key nth js_get bind List.length Nat.eqb].
    rewrite Q, V. cbn [js_get bind]. rewrite P.
    cbn [js_mul to_number bind js_add].
    replace (num_add (Num (sum_lines before 0)) (num_mul q NaN)) with NaN
      by (destruct q; reflexivity).
    rewrite reduce_lines_NaN. reflexivity. }
  split; [exact S|].
  intros Sh T D. unfold orderTotal, orderTaxes, orderShipping, orderDiscounts.
  rewrite S, Sh, T, D. reflexivity.
Qed.

(** X18 at [item_without_price] between two well-formed items. *)
Lemma missing_price_example :
  orderSubTotal
    [("items",
      VArr [item_value {| shopId := "A"; quantity := 2; price := 5 |};
            item_without_price;
            item_value {| shopId := "B"; quantity := 1; price := 3 |}])]
  = Normal "NaN"
  /\ orderTotal
       [("items",
         VArr [item_value {| shopId := "A"; quantity := 2; price := 5 |};
               item_without_price;
               item_value {| shopId := "B"; quantity := 1; price := 3 |}])]
     = Normal "NaN".
Proof.
  destruct (missing_price_spoils_the_subtotal
              [("items",
                VArr [item_value
                        {| shopId := "A"; quantity := 2; price := 5 |};
                      item_without_price;
                      item_value
                        {| shopId := "B"; quantity := 1; price := 3 |}])]
              [ {| shopId := "A"; quantity := 2; price := 5 |} ]
              [ {| shopId := "B"; quantity := 1; price := 3 |} ]
              [("shopId", VStr "A"); ("quantity", VNum (Num 2));
               ("variants", VObj [])]
              [] (Num 2) eq_refl eq_refl eq_refl eq_refl) as [S T].
  split; [exact S | apply T; reflexivity].
Defined.
